(** * Python-Mini-Projects: Calculator, CurrencyConverter and RPS

    A shallow embedding of the three programs of the repository

      - [Calculator/Calculator.py]   (PySide6 desktop calculator),
      - [CurrencyConverter/CurrencyConverter.py] (command-line client),
      - [RPS/RPS.py]                 (Rock-Paper-Scissors game),

    followed by the properties of the specification stated on that
    embedding.  Python values are modelled as the interpreter has them:
    [str] as [string], [int] as [Z], [float] as an IEEE-754 binary64 number
    with its rounding written out, exceptions as an explicit result type and
    widget state as a record threaded through a state-and-exception monad. *)

From Stdlib Require Import ZArith List String Ascii Bool Lia.
Import ListNotations.

Local Open Scope string_scope.
Local Open Scope Z_scope.

(* ===================================================================== *)
(** ** Python strings                                                    *)
(* ===================================================================== *)

Module PyStr.

(** [str.isspace] on one character (code points below 256). *)
Definition is_space (c : ascii) : bool :=
  let n := nat_of_ascii c in
  ((9 <=? n) && (n <=? 13) || (28 <=? n) && (n <=? 32)
   || (n =? 133) || (n =? 160))%nat.

Definition is_digit (c : ascii) : bool :=
  let n := nat_of_ascii c in ((48 <=? n) && (n <=? 57))%nat.

Definition digit_val (c : ascii) : Z := Z.of_nat (nat_of_ascii c) - 48.

(** [c.lower()]: A-Z and the capitals U+00C0..U+00DE other than the
    multiplication sign. *)
Definition lower_char (c : ascii) : ascii :=
  let n := nat_of_ascii c in
  if ((65 <=? n) && (n <=? 90)
      || (192 <=? n) && (n <=? 222) && negb (n =? 215))%nat
  then ascii_of_nat (n + 32) else c.

(** [c.upper()] where it is one character below 256: a-z and the small
    letters U+00E0..U+00FE other than the division sign.  (The capitals
    of U+00B5 and U+00FF lie beyond the code points of [string]; they
    are left in place.) *)
Definition upper_char (c : ascii) : ascii :=
  let n := nat_of_ascii c in
  if ((97 <=? n) && (n <=? 122)
      || (224 <=? n) && (n <=? 254) && negb (n =? 247))%nat
  then ascii_of_nat (n - 32) else c.

Fixpoint map_chars (f : ascii -> ascii) (s : string) : string :=
  match s with
  | EmptyString => EmptyString
  | String c r => String (f c) (map_chars f r)
  end.

(** [s.lower()]. *)
Definition lower : string -> string := map_chars lower_char.

(** [s.upper()]; the sharp s (U+00DF) becomes "SS". *)
Fixpoint upper (s : string) : string :=
  match s with
  | EmptyString => EmptyString
  | String c r =>
      if (nat_of_ascii c =? 223)%nat then String "S" (String "S" (upper r))
      else String (upper_char c) (upper r)
  end.

Fixpoint lstrip (s : string) : string :=
  match s with
  | String c r => if is_space c then lstrip r else s
  | EmptyString => EmptyString
  end.

Fixpoint rstrip (s : string) : string :=
  match s with
  | EmptyString => EmptyString
  | String c r =>
      match rstrip r with
      | EmptyString => if is_space c then EmptyString else String c EmptyString
      | r' => String c r'
      end
  end.

(** [s.strip()]. *)
Definition strip (s : string) : string := rstrip (lstrip s).

(** The whitespace [int] and [float] accept around a number: that of
    [str.isspace] without the separators U+001C..U+001F. *)
Definition is_literal_space (c : ascii) : bool :=
  let n := nat_of_ascii c in
  is_space c && negb ((28 <=? n) && (n <=? 31))%nat.

Fixpoint lstrip_literal (s : string) : string :=
  match s with
  | String c r => if is_literal_space c then lstrip_literal r else s
  | EmptyString => EmptyString
  end.

Fixpoint rstrip_literal (s : string) : string :=
  match s with
  | EmptyString => EmptyString
  | String c r =>
      match rstrip_literal r with
      | EmptyString =>
          if is_literal_space c then EmptyString else String c EmptyString
      | r' => String c r'
      end
  end.

(** A numeric literal without the whitespace around it. *)
Definition strip_literal (s : string) : string :=
  rstrip_literal (lstrip_literal s).

(** [s.split()] : the maximal runs of non-whitespace characters.
    [cur] is the run being read, in reverse. *)
Fixpoint split_aux (s : string) (cur : list ascii) : list string :=
  let flush :=
    match cur with
    | [] => []
    | _ => [string_of_list_ascii (rev cur)]
    end in
  match s with
  | EmptyString => flush
  | String c r =>
      if is_space c then flush ++ split_aux r []
      else split_aux r (c :: cur)
  end.

Definition split (s : string) : list string := split_aux s [].

(** [c in s] for a one-character [c]. *)
Fixpoint contains (c : ascii) (s : string) : bool :=
  match s with
  | EmptyString => false
  | String d r => Ascii.eqb c d || contains c r
  end.

(** [s.startswith(p)]. *)
Definition startswith (p s : string) : bool := String.prefix p s.

(** [s[:-k]] : all but the last [k] characters. *)
Definition drop_last (k : nat) (s : string) : string :=
  substring 0 (String.length s - k) s.

(** [s.endswith(p)]. *)
Definition endswith (p s : string) : bool :=
  (String.length p <=? String.length s)%nat
  && String.eqb (substring (String.length s - String.length p)
                           (String.length p) s) p.

(** [s[1:]]. *)
Definition tail (s : string) : string :=
  match s with
  | EmptyString => EmptyString
  | String _ r => r
  end.

(** [xs[-1]] of a list, [None] for the [IndexError] of an empty one. *)
Definition last_opt {A} (xs : list A) : option A :=
  match rev xs with
  | [] => None
  | x :: _ => Some x
  end.

(** The decimal digits of a non-negative integer, most significant
    first. *)
Fixpoint digits_pos (fuel : nat) (n : Z) (acc : string) : string :=
  match fuel with
  | O => acc
  | S f =>
      let acc' := String (ascii_of_nat (Z.to_nat (48 + n mod 10))) acc in
      if n <? 10 then acc' else digits_pos f (n / 10) acc'
  end.

Definition digits (n : Z) : string :=
  digits_pos (S (Z.to_nat (Z.log2 n))) n EmptyString.

(** [zeros k] is ["0" * k]. *)
Fixpoint zeros (k : nat) : string :=
  match k with
  | O => EmptyString
  | S k' => String "0" (zeros k')
  end.

(** A text without whitespace, as [split] sees it. *)
Fixpoint no_space (s : string) : bool :=
  match s with
  | EmptyString => true
  | String c r => negb (is_space c) && no_space r
  end.

End PyStr.

(* ===================================================================== *)
(** ** Python exceptions and numbers                                     *)
(* ===================================================================== *)

Module Py.

(** The exception classes the three programs can meet.
    [JSONDecodeError] is the one of [requests] (2.27 and later), a
    subclass of both [RequestException] and [ValueError]; [ValueError]
    stands for a [ValueError] of no other class listed here. *)
Inductive exn : Type :=
| AttributeError
| ValueError
| ZeroDivisionError
| KeyError
| IndexError
| OverflowError
| TypeError
| RuntimeError (msg : string)
| RequestException (msg : string)
| JSONDecodeError (msg : string)
| EOFError.

(** The outcome of evaluating an expression: a value or a raised
    exception. *)
Inductive result (A : Type) : Type :=
| Ok (a : A)
| Raise (e : exn).
Arguments Ok {A} a.
Arguments Raise {A} e.

Definition rbind {A B} (r : result A) (k : A -> result B) : result B :=
  match r with
  | Ok a => k a
  | Raise e => Raise e
  end.

Definition of_option {A} (e : exn) (o : option A) : result A :=
  match o with
  | Some a => Ok a
  | None => Raise e
  end.

End Py.

(** *** IEEE-754 binary64, as CPython's [float] *)

Module PyFloat.

(** A double: not-a-number, an infinity, a signed zero, or a finite
    non-zero number [(-1)^neg * m * 2^e] with [0 < m < 2^53] and
    [-1074 <= e <= 971] (normal when [2^52 <= m], else [e = -1074]). *)
Inductive float : Type :=
| Fnan
| Finf (neg : bool)
| Fzero (neg : bool)
| Ffin (neg : bool) (m : Z) (e : Z).

Definition emin : Z := -1074.
Definition emax : Z := 971.

(** Quotient, remainder and divisor of [n / (d * 2^e)]. *)
Definition scale_quot (n d e : Z) : Z * Z * Z :=
  let num := if 0 <=? e then n else n * 2 ^ (- e) in
  let den := if 0 <=? e then d * 2 ^ e else d in
  (num / den, num mod den, den).

(** Round the positive fraction [n / d] to the nearest double, ties to
    even: [Some (m, e)] (with [m = 0] on underflow to zero), or [None]
    when the result exceeds the largest finite double. *)
Definition round_pos (n d : Z) : option (Z * Z) :=
  let lg := Z.log2 n - Z.log2 d in
  let e1 := lg - 52 in
  let '(q1, _, _) := scale_quot n d e1 in
  let e2 := if 2 ^ 53 <=? q1 then e1 + 1
            else if q1 <? 2 ^ 52 then e1 - 1 else e1 in
  let e := Z.max e2 emin in
  let '(q, r, den) := scale_quot n d e in
  let q' := if den <? 2 * r then q + 1
            else if 2 * r =? den then (if Z.odd q then q + 1 else q)
            else q in
  let '(m, e') := if q' =? 2 ^ 53 then (2 ^ 52, e + 1) else (q', e) in
  if emax <? e' then None else Some (m, e').

(** The double nearest to [(-1)^neg * n / d]; overflow gives an
    infinity (the behaviour of [float(str)] and of float arithmetic). *)
Definition of_frac (neg : bool) (n d : Z) : float :=
  match round_pos n d with
  | None => Finf neg
  | Some (m, e) => if m =? 0 then Fzero neg else Ffin neg m e
  end.

(** The exact value of a finite non-zero double as a fraction. *)
Definition frac_of (m e : Z) : Z * Z :=
  if 0 <=? e then (m * 2 ^ e, 1) else (m, 2 ^ (- e)).

Definition fneg (x : float) : float :=
  match x with
  | Fnan => Fnan
  | Finf s => Finf (negb s)
  | Fzero s => Fzero (negb s)
  | Ffin s m e => Ffin (negb s) m e
  end.

Definition is_zero (x : float) : bool :=
  match x with Fzero _ => true | _ => false end.

Definition signed (s : bool) (m : Z) : Z := if s then - m else m.

(** [x + y]. *)
Definition fadd (x y : float) : float :=
  match x, y with
  | Fnan, _ | _, Fnan => Fnan
  | Finf s, Finf t => if Bool.eqb s t then Finf s else Fnan
  | Finf s, _ | _, Finf s => Finf s
  | Fzero s, Fzero t => Fzero (s && t)
  | Fzero _, z | z, Fzero _ => z
  | Ffin s1 m1 e1, Ffin s2 m2 e2 =>
      let e := Z.min e1 e2 in
      let v := signed s1 m1 * 2 ^ (e1 - e) + signed s2 m2 * 2 ^ (e2 - e) in
      if v =? 0 then Fzero false
      else let '(n, d) := frac_of (Z.abs v) e in of_frac (v <? 0) n d
  end.

(** [x - y]. *)
Definition fsub (x y : float) : float := fadd x (fneg y).

Definition sign_of (x : float) : bool :=
  match x with
  | Fnan => false
  | Finf s | Fzero s | Ffin s _ _ => s
  end.

(** [x * y]. *)
Definition fmul (x y : float) : float :=
  let s := xorb (sign_of x) (sign_of y) in
  match x, y with
  | Fnan, _ | _, Fnan => Fnan
  | Finf _, Fzero _ | Fzero _, Finf _ => Fnan
  | Finf _, _ | _, Finf _ => Finf s
  | Fzero _, _ | _, Fzero _ => Fzero s
  | Ffin _ m1 e1, Ffin _ m2 e2 =>
      let '(n, d) := frac_of (m1 * m2) (e1 + e2) in of_frac s n d
  end.

(** [x / y] for a divisor that is not zero (Python raises
    [ZeroDivisionError] before dividing by a zero). *)
Definition fdiv (x y : float) : float :=
  let s := xorb (sign_of x) (sign_of y) in
  match x, y with
  | Fnan, _ | _, Fnan => Fnan
  | Finf _, Finf _ => Fnan
  | Finf _, _ => Finf s
  | _, Finf _ => Fzero s
  | Fzero _, _ => Fzero s
  | _, Fzero _ => Fnan
  | Ffin _ m1 e1, Ffin _ m2 e2 =>
      let '(n1, d1) := frac_of m1 e1 in
      let '(n2, d2) := frac_of m2 e2 in
      of_frac s (n1 * d2) (d1 * n2)
  end.

(** *** [repr(float)]: the shortest decimal string that reads back as
    the same double *)

(** [n / d < 10^t]. *)
Definition lt_pow10 (n d t : Z) : bool :=
  if 0 <=? t then n <? d * 10 ^ t else n * 10 ^ (- t) <? d.

Fixpoint find_decpt (fuel : nat) (n d t : Z) : Z :=
  match fuel with
  | O => t
  | S f => if lt_pow10 n d t then t else find_decpt f n d (t + 1)
  end.

(** The least [t] with [n / d < 10^t]. *)
Definition decpt_of (n d : Z) : Z :=
  let lg := Z.log2 n - Z.log2 d in
  find_decpt 8 n d (lg * 30103 / 100000 - 2).

(** Does the decimal [c * 10^p] read back as the double [(m, e)]? *)
Definition reads_back (m e c p : Z) : bool :=
  let '(n, d) := if 0 <=? p then (c * 10 ^ p, 1) else (c, 10 ^ (- p)) in
  match round_pos n d with
  | Some (m', e') => (m' =? m) && (e' =? e)
  | None => false
  end.

(** The best [k]-digit decimal for the double [(m, e)] with value
    [n / d] and decimal point position [decpt], if one reads back. *)
Definition candidate (m e n d decpt : Z) (k : Z) : option Z :=
  let p := decpt - k in
  let '(num, den) := if 0 <=? p then (n, d * 10 ^ p)
                     else (n * 10 ^ (- p), d) in
  let lo := num / den in
  let r := num mod den in
  let lo_ok := reads_back m e lo p in
  let hi_ok := reads_back m e (lo + 1) p in
  if r =? 0 then (if lo_ok then Some lo else None)
  else if lo_ok && hi_ok then
    if 2 * r <? den then Some lo
    else if den <? 2 * r then Some (lo + 1)
    else Some (if Z.even lo then lo else lo + 1)
  else if lo_ok then Some lo
  else if hi_ok then Some (lo + 1)
  else None.

Fixpoint shortest_from (fuel : nat) (m e n d decpt k : Z) : Z * Z :=
  match fuel with
  | O => (0, k)
  | S f =>
      match candidate m e n d decpt k with
      | Some c => (c, k)
      | None => shortest_from f m e n d decpt (k + 1)
      end
  end.

Fixpoint strip_zeros (fuel : nat) (c : Z) : Z :=
  match fuel with
  | O => c
  | S f => if (c mod 10 =? 0) && negb (c =? 0) then strip_zeros f (c / 10)
           else c
  end.

(** The digit string and decimal point position of the shortest
    representation: the value is [0.d1d2...dn * 10^decpt]. *)
Definition shortest (m e : Z) : string * Z :=
  let '(n, d) := frac_of m e in
  let decpt := decpt_of n d in
  let '(c, k) := shortest_from 17 m e n d decpt 1 in
  let len := Z.of_nat (String.length (PyStr.digits c)) in
  (PyStr.digits (strip_zeros 18 c), decpt + (len - k)).

Definition exponent_str (ex : Z) : string :=
  let ds := PyStr.digits (Z.abs ex) in
  (if ex <? 0 then "-" else "+")
    ++ (if (String.length ds <? 2)%nat then "0" ++ ds else ds).

(** [repr] of a positive finite double: fixed notation when
    [-4 < decpt <= 16], exponent notation otherwise. *)
Definition repr_pos (m e : Z) : string :=
  let '(ds, decpt) := shortest m e in
  let n := Z.of_nat (String.length ds) in
  if (-4 <? decpt) && (decpt <=? 16) then
    if decpt <=? 0 then "0." ++ PyStr.zeros (Z.to_nat (- decpt)) ++ ds
    else if decpt <? n then
      substring 0 (Z.to_nat decpt) ds ++ "."
        ++ substring (Z.to_nat decpt) (Z.to_nat (n - decpt)) ds
    else ds ++ PyStr.zeros (Z.to_nat (decpt - n)) ++ ".0"
  else
    substring 0 1 ds
      ++ (if 1 <? n then "." ++ PyStr.tail ds else "")
      ++ "e" ++ exponent_str (decpt - 1).

(** [str(x)] = [repr(x)] of a float. *)
Definition repr (x : float) : string :=
  match x with
  | Fnan => "nan"
  | Finf s => if s then "-inf" else "inf"
  | Fzero s => if s then "-0.0" else "0.0"
  | Ffin s m e => (if s then "-" else "") ++ repr_pos m e
  end.

End PyFloat.

(** *** Python numbers: [int] and [float], and their conversions *)

Module PyNum.
Import Py PyFloat.

(** A value of type [Union[int, float]]. *)
Inductive num : Type :=
| PyInt (n : Z)
| PyFloat (x : float).

(** [sys.int_info.default_max_str_digits]: [int(str)] and [str(int)]
    raise [ValueError] beyond this many digits. *)
Definition int_max_str_digits : nat := 4300.

(** **** Reading numbers from text *)

(** Drop the underscores of a numeric literal; each must stand
    between two digits. *)
Fixpoint remove_underscores (prev : bool) (s : list ascii)
  : option (list ascii) :=
  match s with
  | [] => Some []
  | c :: r =>
      if Ascii.eqb c "_" then
        match r with
        | d :: _ =>
            if prev && PyStr.is_digit d then remove_underscores false r
            else None
        | [] => None
        end
      else option_map (cons c) (remove_underscores (PyStr.is_digit c) r)
  end.

(** The leading run of decimal digits and what follows it. *)
Fixpoint take_digits (s : list ascii) : list ascii * list ascii :=
  match s with
  | c :: r =>
      if PyStr.is_digit c
      then let '(ds, rest) := take_digits r in (c :: ds, rest)
      else ([], s)
  | [] => ([], [])
  end.

Definition digits_value (ds : list ascii) : Z :=
  fold_left (fun acc c => 10 * acc + PyStr.digit_val c) ds 0.

(** An optional sign: [true] for "-". *)
Definition take_sign (s : list ascii) : bool * list ascii :=
  match s with
  | c :: r =>
      if Ascii.eqb c "-" then (true, r)
      else if Ascii.eqb c "+" then (false, r)
      else (false, s)
  | [] => (false, [])
  end.

(** [int(s)] in base 10; [None] is the [ValueError]. *)
Definition int_of_string (s : string) : option Z :=
  match remove_underscores false
          (list_ascii_of_string (PyStr.strip_literal s)) with
  | None => None
  | Some cs =>
      let '(neg, body) := take_sign cs in
      match take_digits body with
      | ((_ :: _) as ds, []) =>
          if (int_max_str_digits <? List.length ds)%nat then None
          else Some (signed neg (digits_value ds))
      | _ => None
      end
  end.

(** The double nearest to [(-1)^neg * D * 10^E]. *)
Definition of_decimal (neg : bool) (D E : Z) : float :=
  if D =? 0 then Fzero neg
  else
    let mag := Z.of_nat (String.length (PyStr.digits D)) + E in
    if 310 <? mag then Finf neg
    else if mag <? -330 then Fzero neg
    else if 0 <=? E then of_frac neg (D * 10 ^ E) 1
    else of_frac neg D (10 ^ (- E)).

(** The exponent part of a float literal: nothing, or [e], an optional
    sign and at least one digit. *)
Definition take_exponent (s : list ascii) : option Z :=
  match s with
  | [] => Some 0
  | c :: r =>
      if Ascii.eqb (PyStr.lower_char c) "e" then
        let '(neg, body) := take_sign r in
        match take_digits body with
        | ((_ :: _) as ds, []) => Some (signed neg (digits_value ds))
        | _ => None
        end
      else None
  end.

(** [float(s)]; [None] is the [ValueError]. *)
Definition float_of_string (s : string) : option float :=
  match remove_underscores false
          (list_ascii_of_string (PyStr.strip_literal s)) with
  | None => None
  | Some cs =>
      let '(neg, body) := take_sign cs in
      let word := PyStr.lower (string_of_list_ascii body) in
      if String.eqb word "inf" || String.eqb word "infinity" then
        Some (Finf neg)
      else if String.eqb word "nan" then Some Fnan
      else
        let '(ip, rest) := take_digits body in
        let '(fp, rest') :=
          match rest with
          | c :: r => if Ascii.eqb c "." then take_digits r else ([], rest)
          | [] => ([], [])
          end in
        match (ip ++ fp)%list with
        | [] => None
        | ds =>
            match take_exponent rest' with
            | Some ex =>
                Some (of_decimal neg (digits_value ds)
                                 (ex - Z.of_nat (List.length fp)))
            | None => None
            end
        end
  end.

(** **** Conversions and arithmetic *)

(** [float(n)] of an [int]: the nearest double, [OverflowError] when
    [n] is too large. *)
Definition float_of_int (n : Z) : result float :=
  if n =? 0 then Ok (Fzero false)
  else match round_pos (Z.abs n) 1 with
       | Some (m, e) => Ok (Ffin (n <? 0) m e)
       | None => Raise OverflowError
       end.

(** The coercion of a binary float operation's operand. *)
Definition to_double (a : num) : result float :=
  match a with
  | PyInt n => float_of_int n
  | PyFloat x => Ok x
  end.

Definition lift2 (fi : Z -> Z -> Z) (ff : float -> float -> float)
           (a b : num) : result num :=
  match a, b with
  | PyInt x, PyInt y => Ok (PyInt (fi x y))
  | _, _ =>
      rbind (to_double a) (fun x =>
      rbind (to_double b) (fun y => Ok (PyFloat (ff x y))))
  end.

(** [operator.add], [operator.sub], [operator.mul]. *)
Definition add : num -> num -> result num := lift2 Z.add fadd.
Definition sub : num -> num -> result num := lift2 Z.sub fsub.
Definition mul : num -> num -> result num := lift2 Z.mul fmul.

(** [operator.truediv]: the correctly rounded quotient of two [int]s,
    the float quotient otherwise; a zero divisor raises
    [ZeroDivisionError]. *)
Definition truediv (a b : num) : result num :=
  match a, b with
  | PyInt x, PyInt y =>
      if y =? 0 then Raise ZeroDivisionError
      else
        let neg := xorb (x <? 0) (y <? 0) in
        if x =? 0 then Ok (PyFloat (Fzero neg))
        else match round_pos (Z.abs x) (Z.abs y) with
             | Some (m, e) =>
                 Ok (PyFloat (if m =? 0 then Fzero neg else Ffin neg m e))
             | None => Raise OverflowError
             end
  | _, _ =>
      rbind (to_double a) (fun x =>
      rbind (to_double b) (fun y =>
        if is_zero y then Raise ZeroDivisionError
        else Ok (PyFloat (fdiv x y))))
  end.

(** [a == 0]. *)
Definition eq_zero (a : num) : bool :=
  match a with
  | PyInt n => n =? 0
  | PyFloat x => is_zero x
  end.

(** [str(n)] of an [int]. *)
Definition str_int (n : Z) : result string :=
  let ds := PyStr.digits (Z.abs n) in
  if (int_max_str_digits <? String.length ds)%nat then Raise ValueError
  else Ok ((if n <? 0 then "-" else "") ++ ds).

(** [str(a)], also what an f-string writes for [{a}]. *)
Definition str (a : num) : result string :=
  match a with
  | PyInt n => str_int n
  | PyFloat x => Ok (repr x)
  end.

End PyNum.

(* ===================================================================== *)
(** ** Calculator/Calculator.py                                          *)
(* ===================================================================== *)

Module Calculator.
Import Py PyNum.

Definition ERROR_ZERO_DIV : string := "Division by zero".
Definition ERROR_UNDEFINED : string := "Result is undefined".

(** Modelled from the spec: [Ui_MainWindow] ([Calculator/ui/design.py]) is
    not among the sources.  Of the window it builds, the calculator logic
    touches the text of [lineEdit] (the spec's Entry, "0" at start), the
    text of [label] (the pending-expression display, empty at start) and
    the enabled state of the five operation buttons.  The length limit of
    the entry field and the fonts are presentation (spec 4.1, 6) and are
    not part of the state.  [is_result_shown] is the attribute set in
    [__init__]. *)
Record state : Type := mkState {
  lineEdit : string;
  label : string;
  is_result_shown : bool;
  disabled : bool
}.

Definition init : state :=
  {| lineEdit := "0"; label := ""; is_result_shown := false;
     disabled := false |}.

(** *** Statements: state passing with exceptions

    A method body maps the window state to an outcome and the state it
    leaves behind; what a method wrote before raising stays written. *)
Definition M (A : Type) : Type := state -> result A * state.

Definition ret {A} (a : A) : M A := fun s => (Ok a, s).

Definition bind {A B} (m : M A) (k : A -> M B) : M B :=
  fun s => match m s with
           | (Ok a, s') => k a s'
           | (Raise e, s') => (Raise e, s')
           end.

Definition lift {A} (r : result A) : M A := fun s => (r, s).

Definition raise {A} (e : exn) : M A := lift (Raise e).

(** [try: m except ...: h]: [h e] is the handler of the clause that
    matches [e], if one does. *)
Definition try_except {A} (m : M A) (h : exn -> option (M A)) : M A :=
  fun s => match m s with
           | (Raise e, s') =>
               match h e with
               | Some k => k s'
               | None => (Raise e, s')
               end
           | r => r
           end.

Declare Scope py_scope.
Delimit Scope py_scope with py.
Notation "x <- m ;; k" := (bind m (fun x => k))
  (at level 61, m at next level, right associativity) : py_scope.
Notation "m ;; k" := (bind m (fun _ => k))
  (at level 61, right associativity) : py_scope.
Local Open Scope py_scope.

(** *** The widgets *)

Definition lineEdit_text : M string := fun s => (Ok (lineEdit s), s).
Definition label_text : M string := fun s => (Ok (label s), s).
Definition get_is_result_shown : M bool :=
  fun s => (Ok (is_result_shown s), s).

Definition lineEdit_setText (t : string) : M unit :=
  fun s => (Ok tt, mkState t (label s) (is_result_shown s) (disabled s)).
Definition label_setText (t : string) : M unit :=
  fun s => (Ok tt, mkState (lineEdit s) t (is_result_shown s) (disabled s)).
Definition label_clear : M unit := label_setText "".
Definition set_is_result_shown (b : bool) : M unit :=
  fun s => (Ok tt, mkState (lineEdit s) (label s) b (disabled s)).

(** [disable_buttons]: [setDisabled(disable)] on [btn_calc], [btn_add],
    [btn_sub], [btn_mul] and [btn_div], which therefore share one flag. *)
Definition disable_buttons (disable : bool) : M unit :=
  fun s => (Ok tt,
            mkState (lineEdit s) (label s) (is_result_shown s) disable).

(** [adjust_entry_font_size], [adjust_temp_font_size]: they restyle the
    widgets and leave the texts and flags alone. *)
Definition adjust_entry_font_size : M unit := ret tt.
Definition adjust_temp_font_size : M unit := ret tt.

(** *** Attribute lookup on [self]

    The names bound in the body of [class Calculator], in source order.
    The base class [QMainWindow] offers Qt's camel-case API only. *)
Definition methods : list string :=
  [ "__init__"; "_connect_buttons"; "add_digit"; "add_point"; "negate";
    "backspace"; "clear_all"; "remove_zeros"; "get_entry"; "get_temp";
    "get_mathsign"; "calculate"; "math_operation"; "show_error";
    "remove_error"; "disable_buttons"; "adjust_entry_font_size";
    "adjust_temp_font_size" ].

(** The attributes [__init__] sets on the instance. *)
Definition instance_attrs : list string :=
  [ "ui"; "entry_max_len"; "is_result_shown" ].

Definition has_attr (name : string) : bool :=
  existsb (String.eqb name) (instance_attrs ++ methods)%list.

(** [self.<name>] for a name with no definition to run: the lookup
    itself, which raises [AttributeError] when the name is unbound. *)
Definition getattr_self (name : string) : M unit :=
  if has_attr name then ret tt else raise AttributeError.

(** [self.clear_temp()] (called at lines 89, 106, 118 and 132). *)
Definition clear_temp : M unit := getattr_self "clear_temp".

(** *** Error handling *)

Definition is_error_text (t : string) : bool :=
  String.eqb t ERROR_ZERO_DIV || String.eqb t ERROR_UNDEFINED.

Definition show_error (text : string) : M unit :=
  lineEdit_setText text ;; disable_buttons true.

Definition remove_error : M unit :=
  t <- lineEdit_text ;;
  if is_error_text t
  then lineEdit_setText "0" ;; disable_buttons false
  else ret tt.

(** *** Input handling *)

(** [if self.is_result_shown: ...], the opening of [add_digit] and
    [add_point]. *)
Definition reset_if_result_shown : M unit :=
  shown <- get_is_result_shown ;;
  if shown then lineEdit_setText "0" ;; set_is_result_shown false
  else ret tt.

(** The statements of [add_digit] after the call of [clear_temp]. *)
Definition add_digit_body (digit : string) : M unit :=
  reset_if_result_shown ;;
  current <- lineEdit_text ;;
  (if String.eqb current "0" then lineEdit_setText digit
   else lineEdit_setText (current ++ digit)) ;;
  adjust_entry_font_size.

Definition add_digit (digit : string) : M unit :=
  remove_error ;; clear_temp ;; add_digit_body digit.

Definition add_point_body : M unit :=
  reset_if_result_shown ;;
  t <- lineEdit_text ;;
  if negb (PyStr.contains "." t)
  then lineEdit_setText (t ++ ".") ;; adjust_entry_font_size
  else ret tt.

Definition add_point : M unit := clear_temp ;; add_point_body.

(** The sign toggle of [negate] on the entry text. *)
Definition toggle_sign (entry : string) : string :=
  if PyStr.startswith "-" entry then PyStr.tail entry
  else if negb (String.eqb entry "0") then "-" ++ entry
  else entry.

Definition negate_body : M unit :=
  entry <- lineEdit_text ;;
  lineEdit_setText (toggle_sign entry) ;;
  adjust_entry_font_size.

Definition negate : M unit := clear_temp ;; negate_body.

Definition backspace_body : M unit :=
  shown <- get_is_result_shown ;;
  if shown then lineEdit_setText "0" ;; set_is_result_shown false
  else
    entry <- lineEdit_text ;;
    (if (1 <? String.length entry)%nat
     then lineEdit_setText (PyStr.drop_last 1 entry)
     else lineEdit_setText "0") ;;
    adjust_entry_font_size.

Definition backspace : M unit :=
  remove_error ;; clear_temp ;; backspace_body.

Definition clear_all : M unit :=
  remove_error ;;
  lineEdit_setText "0" ;;
  label_clear ;;
  set_is_result_shown false ;;
  adjust_entry_font_size ;;
  adjust_temp_font_size.

(** *** Calculation logic *)

(** [remove_zeros(num)]: [str(float(num))] without a trailing ".0". *)
Definition remove_zeros (num : string) : result string :=
  match float_of_string num with
  | None => Raise ValueError
  | Some x =>
      let n := PyFloat.repr x in
      Ok (if PyStr.endswith ".0" n then PyStr.drop_last 2 n else n)
  end.

(** [float(t) if "." in t else int(t)]. *)
Definition parse_number (t : string) : result num :=
  if PyStr.contains "." t
  then of_option ValueError (option_map PyFloat (float_of_string t))
  else of_option ValueError (option_map PyInt (int_of_string t)).

Definition get_entry : M num :=
  entry <- lineEdit_text ;; lift (parse_number entry).

Definition get_temp : M (option num) :=
  t <- label_text ;;
  if negb (String.eqb t "") then
    temp <- lift (of_option IndexError (hd_error (PyStr.split t))) ;;
    n <- lift (parse_number temp) ;;
    ret (Some n)
  else ret None.

Definition get_mathsign : M (option string) :=
  t <- label_text ;;
  if negb (String.eqb t "") then
    sign <- lift (of_option IndexError (PyStr.last_opt (PyStr.split t))) ;;
    ret (Some sign)
  else ret None.

(** [operations[key]]: the dictionary of lines 25-30. *)
Definition operations (key : option string)
  : result (num -> num -> result num) :=
  match key with
  | Some k =>
      if String.eqb k "+" then Ok add
      else if String.eqb k "-" then Ok sub
      else if String.eqb k "*" then Ok mul
      else if String.eqb k "/" then Ok truediv
      else Raise KeyError
  | None => Raise KeyError
  end.

(** An operator applied to [get_temp()] and [get_entry()]; [None] is
    no operand of an arithmetic operator. *)
Definition apply_op (f : num -> num -> result num)
           (a : option num) (b : num) : result num :=
  match a with
  | Some x => f x b
  | None => Raise TypeError
  end.

(** What an f-string writes for an [Optional] value. *)
Definition fmt_opt_num (a : option num) : result string :=
  match a with
  | Some x => str x
  | None => Ok "None"
  end.

Definition fmt_opt_str (a : option string) : string :=
  match a with
  | Some x => x
  | None => "None"
  end.

Definition opt_eq_zero (a : option num) : bool :=
  match a with
  | Some x => eq_zero x
  | None => false
  end.

(** The [try] block of [calculate]. *)
Definition calculate_try : M (option string) :=
  sign <- get_mathsign ;;
  op <- lift (operations sign) ;;
  temp <- get_temp ;;
  entry <- get_entry ;;
  result <- lift (apply_op op temp entry) ;;
  text <- lift (str result) ;;
  result <- lift (remove_zeros text) ;;
  temp' <- get_temp ;;
  left <- lift (fmt_opt_num temp') ;;
  sign' <- get_mathsign ;;
  right <- lineEdit_text ;;
  label_setText (left ++ " " ++ fmt_opt_str sign' ++ " " ++ right ++ " =") ;;
  lineEdit_setText result ;;
  set_is_result_shown true ;;
  adjust_entry_font_size ;;
  adjust_temp_font_size ;;
  ret (Some result).

(** The [except] clauses of [calculate]. *)
Definition calculate_except (e : exn) : option (M (option string)) :=
  match e with
  | ZeroDivisionError =>
      Some (temp <- get_temp ;;
            (if opt_eq_zero temp then show_error ERROR_UNDEFINED
             else show_error ERROR_ZERO_DIV) ;;
            ret None)
  | KeyError => Some (ret None)
  | _ => None
  end.

Definition calculate : M (option string) :=
  t <- label_text ;;
  if String.eqb t "" then ret None
  else try_except calculate_try calculate_except.

Definition math_operation (sign : string) : M unit :=
  t <- label_text ;;
  (if String.eqb t "" then
     entry <- lineEdit_text ;;
     z <- lift (remove_zeros entry) ;;
     label_setText (z ++ " " ++ sign) ;;
     lineEdit_setText "0"
   else
     cur <- get_mathsign ;;
     if match cur with Some c => String.eqb c "=" | None => false end then
       entry <- lineEdit_text ;;
       z <- lift (remove_zeros entry) ;;
       label_setText (z ++ " " ++ sign)
     else
       t' <- label_text ;;
       label_setText (PyStr.drop_last 1 t' ++ sign)) ;;
  set_is_result_shown false ;;
  adjust_temp_font_size.

(** *** The buttons and the event loop *)

Inductive button : Type :=
| btn_num (i : nat)
| btn_clear
| btn_point
| btn_neg
| btn_backspace
| btn_calc
| btn_add
| btn_sub
| btn_mul
| btn_div.

(** [_connect_buttons]: the slot of each button's [clicked] signal;
    [btn_0] to [btn_9] are the digit buttons. *)
Definition slot (b : button) : option (M unit) :=
  match b with
  | btn_num i =>
      if (i <? 10)%nat then Some (add_digit (PyStr.digits (Z.of_nat i)))
      else None
  | btn_clear => Some clear_all
  | btn_point => Some add_point
  | btn_neg => Some negate
  | btn_backspace => Some backspace
  | btn_calc => Some (calculate ;; ret tt)
  | btn_add => Some (math_operation "+")
  | btn_sub => Some (math_operation "-")
  | btn_mul => Some (math_operation "*")
  | btn_div => Some (math_operation "/")
  end.

(** The buttons [disable_buttons] acts on. *)
Definition is_operation (b : button) : bool :=
  match b with
  | btn_calc | btn_add | btn_sub | btn_mul | btn_div => true
  | _ => false
  end.

(** One click.  A disabled button emits no signal.  An exception that
    leaves a slot is printed by the Qt binding and the event loop goes on
    with the state the slot left behind; it is returned here. *)
Definition click (b : button) (s : state) : option exn * state :=
  if is_operation b && disabled s then (None, s)
  else
    match slot b with
    | None => (None, s)
    | Some m =>
        match m s with
        | (Ok _, s') => (None, s')
        | (Raise e, s') => (Some e, s')
        end
    end.

(** The state after a sequence of clicks. *)
Definition run (bs : list button) (s : state) : state :=
  fold_left (fun st b => snd (click b st)) bs s.

(** The exceptions reported along a sequence of clicks. *)
Fixpoint reported (bs : list button) (s : state) : list exn :=
  match bs with
  | [] => []
  | b :: r =>
      let '(o, s') := click b s in
      match o with
      | Some e => e :: reported r s'
      | None => reported r s'
      end
  end.

(** The states the window can be in: those some sequence of clicks
    leads to. *)
Inductive reachable : state -> Prop :=
| reach_init : reachable init
| reach_click b s : reachable s -> reachable (snd (click b s)).

(** *** Notions used to state the properties *)

(** The spec's ErrorState: an error message stands in the entry field
    and the operation buttons are disabled. *)
Definition error_state (s : state) : Prop :=
  is_error_text (lineEdit s) = true /\ disabled s = true.

(** What [remove_error] leaves behind. *)
Definition without_error (s : state) : state :=
  if is_error_text (lineEdit s)
  then mkState "0" (label s) (is_result_shown s) false
  else s.

(** The buttons whose slot starts with [remove_error]: the ten digits,
    backspace and clear. *)
Definition clears_error (b : button) : bool :=
  match b with
  | btn_num i => (i <? 10)%nat
  | btn_backspace | btn_clear => true
  | _ => false
  end.

(** The operation buttons are disabled only next to an error message
    and a pending expression. *)
Definition error_shown_if_disabled (s : state) : Prop :=
  disabled s = true ->
  is_error_text (lineEdit s) = true /\ label s <> "".

(** The left operand can take part in float arithmetic: an [int]
    beyond the range of a double raises [OverflowError] there. *)
Definition fits_double (a : num) : Prop :=
  exists x, to_double a = Ok x.

(** The signs the four operation buttons pass to [math_operation]. *)
Definition operator_signs : list string := ["+"; "-"; "*"; "/"].

(** The states met from [init]: the initial one, one per pending
    operator on the operand 0, one per finalized expression, and the
    error after "0 /". *)
Definition reachable_states : list state :=
  [ init;
    mkState "0" "0 +" false false;
    mkState "0" "0 -" false false;
    mkState "0" "0 *" false false;
    mkState "0" "0 /" false false;
    mkState "0" "0 + 0 =" true false;
    mkState "0" "0 - 0 =" true false;
    mkState "0" "0 * 0 =" true false;
    mkState ERROR_UNDEFINED "0 /" false true ].

End Calculator.

(* ===================================================================== *)
(** ** CurrencyConverter/CurrencyConverter.py                            *)
(* ===================================================================== *)

Module CurrencyConverter.
Import Py PyNum.

Local Set Warnings "-register-all".

(** A decoded JSON document; an object keeps its members in order. *)
Inductive json : Type :=
| JNull
| JBool (b : bool)
| JNum (x : num)
| JStr (s : string)
| JArr (items : list json)
| JObj (members : list (string * json)).

(** What the program does to the outside: a printed line, the prompt
    of an [input] call, or an HTTP GET. *)
Inductive event : Type :=
| Print (line : string)
| Prompt (text : string)
| Get (url : string) (timeout : Z).

(** The lines still to be read from standard input and the events so
    far, newest first. *)
Record world : Type := mkWorld {
  stdin : list string;
  trace : list event
}.

Definition W (A : Type) : Type := world -> result A * world.

Definition ret {A} (a : A) : W A := fun w => (Ok a, w).

Definition bind {A B} (m : W A) (k : A -> W B) : W B :=
  fun w => match m w with
           | (Ok a, w') => k a w'
           | (Raise e, w') => (Raise e, w')
           end.

Definition lift {A} (r : result A) : W A := fun w => (r, w).

Definition raise {A} (e : exn) : W A := lift (Raise e).

Declare Scope io_scope.
Delimit Scope io_scope with io.
Notation "x <- m ;; k" := (bind m (fun x => k))
  (at level 61, m at next level, right associativity) : io_scope.
Notation "m ;; k" := (bind m (fun _ => k))
  (at level 61, right associativity) : io_scope.
Local Open Scope io_scope.

Definition emit (e : event) : W unit :=
  fun w => (Ok tt, mkWorld (stdin w) (e :: trace w)).

Definition print (line : string) : W unit := emit (Print line).

(** [input(prompt)]: [EOFError] at the end of the input. *)
Definition input (prompt : string) : W string :=
  emit (Prompt prompt) ;;
  fun w => match stdin w with
           | line :: rest => (Ok line, mkWorld rest (trace w))
           | [] => (Raise EOFError, w)
           end.

Definition is_get (e : event) : bool :=
  match e with Get _ _ => true | _ => false end.

(** The number of HTTP requests in a trace. *)
Definition requests (t : list event) : nat :=
  List.length (filter is_get t).

Definition BASE_URL : string := "https://free.currconv.com/".

Definition CONFIG_ERROR : string :=
  "CURRENCY_API_KEY is not set. Export it or put it in your .env.".

(** ".4f" of a float: four decimals, the exact value rounded half to
    even. *)
Definition format_4f (x : PyFloat.float) : string :=
  match x with
  | PyFloat.Fnan => "nan"
  | PyFloat.Finf s => if s then "-inf" else "inf"
  | PyFloat.Fzero s => if s then "-0.0000" else "0.0000"
  | PyFloat.Ffin s m e =>
      let '(n, d) := PyFloat.frac_of m e in
      let num := n * 10000 in
      let q := num / d in
      let r := num mod d in
      let q' := if d <? 2 * r then q + 1
                else if 2 * r =? d then (if Z.odd q then q + 1 else q)
                else q in
      let fr := PyStr.digits (q' mod 10000) in
      (if s then "-" else "") ++ PyStr.digits (q' / 10000) ++ "."
        ++ PyStr.zeros (4 - String.length fr) ++ fr
  end.

(** [d.get(key)] on the members of a dictionary; the last binding of a
    key is the one a dictionary keeps. *)
Fixpoint lookup (key : string) (members : list (string * json))
  : option json :=
  match members with
  | [] => None
  | (k, v) :: rest =>
      match lookup key rest with
      | Some v' => Some v'
      | None => if String.eqb k key then Some v else None
      end
  end.

(** [x.get(key, default)]: only a dictionary has [get]. *)
Definition get_default (x : json) (key : string) (default : json)
  : result json :=
  match x with
  | JObj members =>
      Ok (match lookup key members with Some v => v | None => default end)
  | _ => Raise AttributeError
  end.

(** Truth value of a decoded document ([not data]). *)
Definition truthy (x : json) : bool :=
  match x with
  | JNull => false
  | JBool b => b
  | JNum a => negb (eq_zero a)
  | JStr s => negb (String.eqb s "")
  | JArr items => match items with [] => false | _ => true end
  | JObj members => match members with [] => false | _ => true end
  end.

(** [float(rate)] of a decoded value. *)
Definition float_of_json (x : json) : result PyFloat.float :=
  match x with
  | JNum a => to_double a
  | JStr s => of_option ValueError (float_of_string s)
  | JBool b => Ok (if b then PyFloat.Ffin false (2 ^ 52) (-52)
                   else PyFloat.Fzero false)
  | _ => Raise TypeError
  end.

(** [items.sort(key=lambda x: x[0])]: a stable insertion sort on the
    currency codes. *)
Fixpoint insert_item (it : string * json) (l : list (string * json))
  : list (string * json) :=
  match l with
  | [] => [it]
  | x :: r =>
      if String.ltb (fst it) (fst x) then it :: l
      else x :: insert_item it r
  end.

Definition sort_items (l : list (string * json)) : list (string * json) :=
  fold_left (fun acc it => insert_item it acc) l [].

(** [dict.items()] of a decoded object: one item per key, at the place
    of the key's first occurrence, with its last value. *)
Fixpoint dict_items (seen : list string) (all m : list (string * json))
  : list (string * json) :=
  match m with
  | [] => []
  | (k, _) :: rest =>
      if existsb (String.eqb k) seen then dict_items seen all rest
      else
        match lookup k all with
        | Some v => (k, v) :: dict_items (k :: seen) all rest
        | None => dict_items (k :: seen) all rest
        end
  end.

Section Client.

(** [API_KEY = os.getenv("CURRENCY_API_KEY")]: the environment's value
    when the module is loaded, [None] when the variable is unset. *)
Variable API_KEY : option string.

(** The service: what the [i]-th request of the run, for [url],
    comes to after [requests.get], [raise_for_status] and [json()]:
    a decoded document, a [RequestException], or, for a body that is
    no JSON, the [JSONDecodeError] of [requests] 2.27 and later or the
    plain [ValueError] of the versions before. *)
Variable http : nat -> string -> result json.

(** [str(v)] of a decoded value, as an f-string writes it. *)
Variable py_str : json -> string.

Definition key_text : string :=
  match API_KEY with Some k => k | None => "None" end.

(** [not API_KEY]. *)
Definition key_missing : bool :=
  match API_KEY with
  | None => true
  | Some k => String.eqb k ""
  end.

Definition api_get_json (endpoint : string) (timeout : Z) : W json :=
  if key_missing then raise (RuntimeError CONFIG_ERROR)
  else
    let url := BASE_URL ++ endpoint in
    fun w =>
      (http (requests (trace w)) url,
       mkWorld (stdin w) (Get url timeout :: trace w)).

Definition get_currencies : W (list (string * json)) :=
  let endpoint := "api/v7/currencies?apiKey=" ++ key_text in
  doc <- api_get_json endpoint 10 ;;
  data <- lift (get_default doc "results" (JObj [])) ;;
  match data with
  | JObj members => ret (sort_items (dict_items [] members members))
  | _ => raise AttributeError
  end.

Fixpoint print_currencies (currencies : list (string * json)) : W unit :=
  match currencies with
  | [] => ret tt
  | (_, currency) :: rest =>
      name <- lift (get_default currency "currencyName" (JStr "")) ;;
      code <- lift (get_default currency "id" (JStr "")) ;;
      symbol <- lift (get_default currency "currencySymbol" (JStr "")) ;;
      print (py_str code ++ " - " ++ py_str name ++ " - "
               ++ py_str symbol) ;;
      print_currencies rest
  end.

Definition exchange_rate (cur1 cur2 : string)
  : W (option PyFloat.float) :=
  let pair := cur1 ++ "_" ++ cur2 in
  let endpoint :=
    "api/v7/convert?q=" ++ pair ++ "&compact=ultra&apiKey=" ++ key_text in
  data <- api_get_json endpoint 10 ;;
  if negb (truthy data) then
    print "Invalid currencies or empty response." ;; ret None
  else
    rate <- lift (get_default data pair JNull) ;;
    match rate with
    | JNull =>
        print "Invalid currencies or unsupported pair." ;; ret None
    | _ =>
        print (cur1 ++ " -> " ++ cur2 ++ " = " ++ py_str rate) ;;
        x <- lift (float_of_json rate) ;;
        ret (Some x)
    end.

Definition convert (cur1 cur2 amount : string)
  : W (option PyFloat.float) :=
  r <- exchange_rate cur1 cur2 ;;
  match r with
  | None => ret None
  | Some rate =>
      match float_of_string amount with
      | None => print "Invalid amount." ;; ret None
      | Some value =>
          let converted := PyFloat.fmul rate value in
          print (PyFloat.repr value ++ " " ++ cur1 ++ " is equal to "
                   ++ format_4f converted ++ " " ++ cur2) ;;
          ret (Some converted)
      end
  end.

Definition GREETING : string :=
  "Hello! Commands:" ++ String "010" "- list: show available currencies"
    ++ String "010" "- rate: show exchange rate between two currencies"
    ++ String "010" "- convert: convert an amount"
    ++ String "010" "- q: quit" ++ String "010" "".

Definition cache : Type := option (list (string * json)).

(** The [try] block of the loop body, for a command other than "q";
    it returns the cache as the command leaves it. *)
Definition dispatch (command : string) (currencies_cache : cache)
  : W cache :=
  if String.eqb command "list" then
    c <- match currencies_cache with
         | None => get_currencies
         | Some c => ret c
         end ;;
    print_currencies c ;;
    ret (Some c)
  else if String.eqb command "convert" then
    a <- input "Enter a currency you have: " ;;
    let cur1 := PyStr.upper (PyStr.strip a) in
    b <- input ("Enter an amount in " ++ cur1 ++ ": ") ;;
    let amount := PyStr.strip b in
    c <- input "Enter a currency you want to get: " ;;
    let cur2 := PyStr.upper (PyStr.strip c) in
    convert cur1 cur2 amount ;;
    ret currencies_cache
  else if String.eqb command "rate" then
    a <- input "Enter a currency you have: " ;;
    let cur1 := PyStr.upper (PyStr.strip a) in
    b <- input "Enter a currency to convert to: " ;;
    let cur2 := PyStr.upper (PyStr.strip b) in
    exchange_rate cur1 cur2 ;;
    ret currencies_cache
  else
    print "Unrecognized command." ;; ret currencies_cache.

(** How one turn of [while True] ends. *)
Inductive turn : Type :=
| Break
| Continue (currencies_cache : cache).

(** One turn of the loop: the prompt, "q", and the [try] block with
    its three [except] clauses, tried in order: a [JSONDecodeError] is a
    [RequestException] and is caught by the first.  An assignment to
    the cache that the exception preempts does not happen. *)
Definition loop_body (currencies_cache : cache) : W turn :=
  line <- input "Enter a command (q to quit): " ;;
  let command := PyStr.lower (PyStr.strip line) in
  if String.eqb command "q" then ret Break
  else
    fun w =>
      match dispatch command currencies_cache w with
      | (Ok c, w') => (Ok (Continue c), w')
      | (Raise (RequestException msg), w')
      | (Raise (JSONDecodeError msg), w') =>
          (print ("Network/API error: " ++ msg) ;;
           ret (Continue currencies_cache)) w'
      | (Raise (RuntimeError msg), w') =>
          (print msg ;; ret Break) w'
      | (Raise ValueError, w') =>
          (print "Failed to parse API response." ;;
           ret (Continue currencies_cache)) w'
      | (Raise e, w') => (Raise e, w')
      end.

(** [while True]: every turn reads at least one line or raises, so
    [fuel] above the number of input lines is never used up. *)
Fixpoint loop (fuel : nat) (currencies_cache : cache) : W unit :=
  match fuel with
  | O => ret tt
  | S f =>
      t <- loop_body currencies_cache ;;
      match t with
      | Break => ret tt
      | Continue c => loop f c
      end
  end.

Definition main : W unit :=
  print GREETING ;;
  fun w => loop (S (List.length (stdin w))) None w.

(** A run of the program on the given input lines. *)
Definition run_main (lines : list string) : result unit * world :=
  main (mkWorld lines []).

(** *** Notions used to state the properties *)

(** A computation that sends no request. *)
Definition quiet {A} (m : W A) : Prop :=
  forall w, requests (trace (snd (m w))) = requests (trace w).

(** The commands that call the service: "convert", "rate", and
    "list" while nothing is cached. *)
Definition touches_api (command : string) (currencies_cache : cache)
  : bool :=
  String.eqb command "convert" || String.eqb command "rate"
  || String.eqb command "list"
     && match currencies_cache with None => true | Some _ => false end.

(** The number of lines a command asks for before it calls the
    service. *)
Definition args_needed (command : string) : nat :=
  if String.eqb command "convert" then 3
  else if String.eqb command "rate" then 2
  else 0.

End Client.

(** Currency codes in non-decreasing order. *)
Fixpoint ordered_codes (l : list (string * json)) : Prop :=
  match l with
  | a :: r =>
      match r with
      | b :: _ => String.ltb (fst b) (fst a) = false /\ ordered_codes r
      | [] => True
      end
  | [] => True
  end.

(** Currency codes in strictly increasing order. *)
Fixpoint increasing_codes (l : list (string * json)) : bool :=
  match l with
  | a :: r =>
      match r with
      | b :: _ => String.ltb (fst a) (fst b) && increasing_codes r
      | [] => true
      end
  | [] => true
  end.

(** A decoded document that is a dictionary. *)
Definition is_object (x : json) : bool :=
  match x with JObj _ => true | _ => false end.

(** A computation that only reads ahead: the input it leaves is a tail
    of the input it found. *)
Definition reads_ahead {A} (m : W A) : Prop :=
  forall w, exists k, stdin (snd (m w)) = skipn k (stdin w).

(** A computation that never ends with a [RuntimeError]. *)
Definition no_runtime_error {A} (m : W A) : Prop :=
  forall w msg, fst (m w) <> Raise (RuntimeError msg).

(** The command a line of input stands for. *)
Definition command_of (line : string) : string :=
  PyStr.lower (PyStr.strip line).

End CurrencyConverter.

(* ===================================================================== *)
(** ** RPS/RPS.py                                                        *)
(* ===================================================================== *)

Module RPS.

Definition OPTIONS : list string := ["rock"; "paper"; "scissors"].

(** The set [wins] of [determine_winner]. *)
Definition wins : list (string * string) :=
  [ ("rock", "scissors"); ("paper", "rock"); ("scissors", "paper") ].

Definition pair_eqb (p q : string * string) : bool :=
  String.eqb (fst p) (fst q) && String.eqb (snd p) (snd q).

(** [1] when the user wins, [-1] when the computer wins, [0] for a
    tie. *)
Definition determine_winner (user computer : string) : Z :=
  if String.eqb user computer then 0
  else if existsb (pair_eqb (user, computer)) wins then 1
  else -1.

(** The beats-relation in the spec's words: rock beats scissors, paper
    beats rock, scissors beats paper. *)
Inductive beats : string -> string -> Prop :=
| rock_beats_scissors : beats "rock" "scissors"
| paper_beats_rock : beats "paper" "rock"
| scissors_beats_paper : beats "scissors" "paper".

(** *** The game loop

    Input and output are those of the currency client: the lines of
    standard input and a trace of prompts and printed lines. *)

Import CurrencyConverter.
Local Open Scope io_scope.

Definition USER_PROMPT : string := "Type Rock/Paper/Scissors (Q to quit): ".
Definition INVALID_CHOICE : string := "Invalid choice. Try again.".

(** [x in OPTIONS]. *)
Definition is_option (x : string) : bool := existsb (String.eqb x) OPTIONS.

(** What [get_user_choice] makes of a line: [.strip().lower()]. *)
Definition choice_of (line : string) : string :=
  PyStr.lower (PyStr.strip line).

(** [str(n)] of a score. *)
Definition show (n : Z) : string :=
  (if n <? 0 then "-" else "") ++ PyStr.digits (Z.abs n).

Section Game.

(** The number of nested calls of [get_user_choice] the interpreter's
    recursion limit leaves room for, and the text of the
    [RecursionError] (a [RuntimeError]) raised beyond it. *)
Variable recursion_limit : nat.
Variable recursion_message : string.

(** The index [random.choice] draws at its [i]-th call. *)
Variable random_index : nat -> nat.

(** [get_user_choice], with [depth] nested calls left. *)
Fixpoint get_user_choice (depth : nat) : W (option string) :=
  match depth with
  | O => raise (Py.RuntimeError recursion_message)
  | S d =>
      line <- input USER_PROMPT ;;
      let user_input := choice_of line in
      if String.eqb user_input "q" then ret None
      else if negb (is_option user_input) then
        print INVALID_CHOICE ;; get_user_choice d
      else ret (Some user_input)
  end.

(** [random.choice(OPTIONS)] at the [i]-th round. *)
Definition get_computer_choice (i : nat) : string :=
  nth (random_index i mod List.length OPTIONS) OPTIONS "rock".

(** The branch of [main] on the result of a round. *)
Definition score_round (result user_score computer_score : Z)
  : W (Z * Z) :=
  if result =? 1 then
    print "You won!" ;; ret (user_score + 1, computer_score)
  else if result =? -1 then
    print "You lost!" ;; ret (user_score, computer_score + 1)
  else
    print "It's a tie!" ;; ret (user_score, computer_score).

(** [while True] of [main], from round [i] on: every turn reads at
    least one line or raises, so [fuel] above the number of input lines
    is never used up.  It returns the scores at the [break]. *)
Fixpoint play (fuel i : nat) (user_score computer_score : Z) : W (Z * Z) :=
  match fuel with
  | O => ret (user_score, computer_score)
  | S f =>
      user_choice <- get_user_choice recursion_limit ;;
      match user_choice with
      | None => ret (user_score, computer_score)
      | Some user =>
          let computer_choice := get_computer_choice i in
          print ("Computer picked: " ++ computer_choice) ;;
          scores <- score_round (determine_winner user computer_choice)
                                user_score computer_score ;;
          print ("Score: You " ++ show (fst scores) ++ " - Computer "
                   ++ show (snd scores) ++ String "010" "") ;;
          play f (S i) (fst scores) (snd scores)
      end
  end.

Definition main : W unit :=
  scores <- (fun w => play (S (List.length (stdin w))) 0 0 0 w) ;;
  print "Final score:" ;;
  print ("You won " ++ show (fst scores) ++ " times.") ;;
  print ("Computer won " ++ show (snd scores) ++ " times.").

End Game.

(** *** Notions used to state the properties *)

(** The scores after a list of rounds, each a pair of the user's and
    the computer's choice. *)
Fixpoint tally (games : list (string * string)) (scores : Z * Z) : Z * Z :=
  match games with
  | [] => scores
  | (user, computer) :: rest =>
      let r := determine_winner user computer in
      tally rest (if r =? 1 then (fst scores + 1, snd scores)
                  else if r =? -1 then (fst scores, snd scores + 1)
                  else scores)
  end.

(** The computer's choices from round [i] on, one per line. *)
Fixpoint computer_choices (random_index : nat -> nat) (i : nat)
         (lines : list string) : list string :=
  match lines with
  | [] => []
  | _ :: rest =>
      nth (random_index i mod List.length OPTIONS) OPTIONS "rock"
        :: computer_choices random_index (S i) rest
  end.

(** The trace after [k] rejected lines: for each, the prompt and the
    complaint. *)
Fixpoint reprompted (k : nat) (t : list event) : list event :=
  match k with
  | O => t
  | S k' => reprompted k' (Print INVALID_CHOICE :: Prompt USER_PROMPT :: t)
  end.

(** A line that is neither "q" nor one of the options. *)
Definition invalid_line (line : string) : bool :=
  negb (String.eqb (choice_of line) "q") && negb (is_option (choice_of line)).

End RPS.

(* ===================================================================== *)
(** ** Properties of the calculator                                      *)
(* ===================================================================== *)

Module CalculatorProps.
Import Py PyNum Calculator.
Local Open Scope py_scope.

(** *** The monad and the widgets *)

Lemma bind_ok {A B} (m : M A) (k : A -> M B) s a s' :
  m s = (Ok a, s') -> bind m k s = k a s'.
Proof. intros H. unfold bind. rewrite H. reflexivity. Qed.

Lemma bind_raise {A B} (m : M A) (k : A -> M B) s e s' :
  m s = (Raise e, s') -> bind m k s = (Raise e, s').
Proof. intros H. unfold bind. rewrite H. reflexivity. Qed.

(** [self.clear_temp] is bound nowhere, so the call raises and writes
    nothing. *)
Lemma clear_temp_raises s : clear_temp s = (Raise AttributeError, s).
Proof. reflexivity. Qed.

Lemma remove_error_spec s : remove_error s = (Ok tt, without_error s).
Proof.
  unfold remove_error, without_error, bind, lineEdit_text.
  destruct (is_error_text (lineEdit s)); reflexivity.
Qed.

Lemma add_digit_raises digit s :
  add_digit digit s = (Raise AttributeError, without_error s).
Proof.
  unfold add_digit.
  rewrite (bind_ok _ _ _ _ _ (remove_error_spec s)).
  apply bind_raise, clear_temp_raises.
Qed.

Lemma backspace_raises s :
  backspace s = (Raise AttributeError, without_error s).
Proof.
  unfold backspace.
  rewrite (bind_ok _ _ _ _ _ (remove_error_spec s)).
  apply bind_raise, clear_temp_raises.
Qed.

Lemma add_point_raises s : add_point s = (Raise AttributeError, s).
Proof. apply bind_raise, clear_temp_raises. Qed.

Lemma negate_raises s : negate s = (Raise AttributeError, s).
Proof. apply bind_raise, clear_temp_raises. Qed.

Lemma clear_all_spec s :
  clear_all s =
  (Ok tt, mkState "0" "" false (disabled (without_error s))).
Proof.
  unfold clear_all.
  rewrite (bind_ok _ _ _ _ _ (remove_error_spec s)).
  reflexivity.
Qed.

(** *** Clicks *)

Lemma click_num i s :
  (i < 10)%nat ->
  click (btn_num i) s = (Some AttributeError, without_error s).
Proof.
  intros Hi. unfold click. cbn [is_operation andb slot].
  apply Nat.ltb_lt in Hi. rewrite Hi, add_digit_raises. reflexivity.
Qed.

Lemma click_backspace s :
  click btn_backspace s = (Some AttributeError, without_error s).
Proof.
  unfold click. cbn [is_operation andb slot].
  rewrite backspace_raises. reflexivity.
Qed.

Lemma click_point s : click btn_point s = (Some AttributeError, s).
Proof. reflexivity. Qed.

Lemma click_neg s : click btn_neg s = (Some AttributeError, s).
Proof. reflexivity. Qed.

Lemma click_clear s :
  click btn_clear s =
  (None, mkState "0" "" false (disabled (without_error s))).
Proof.
  unfold click. cbn [is_operation andb slot].
  rewrite clear_all_spec. reflexivity.
Qed.

Lemma click_disabled b s :
  is_operation b = true -> disabled s = true -> click b s = (None, s).
Proof. intros Hb Hs. unfold click. rewrite Hb, Hs. reflexivity. Qed.

Lemma without_error_no_error s :
  is_error_text (lineEdit s) = true ->
  without_error s = mkState "0" (label s) (is_result_shown s) false.
Proof. intros H. unfold without_error. rewrite H. reflexivity. Qed.


(** *** Reading the widgets *)

Lemma get_mathsign_snd s : snd (get_mathsign s) = s.
Proof.
  unfold get_mathsign, bind, label_text, lift, ret.
  destruct (negb (String.eqb (label s) "")); [|reflexivity].
  destruct (of_option IndexError (PyStr.last_opt (PyStr.split (label s))));
    reflexivity.
Qed.

Lemma get_temp_snd s : snd (get_temp s) = s.
Proof.
  unfold get_temp, bind, label_text, lift, ret.
  destruct (negb (String.eqb (label s) "")); [|reflexivity].
  destruct (of_option IndexError (hd_error (PyStr.split (label s))));
    [|reflexivity].
  destruct (parse_number a); reflexivity.
Qed.

Lemma get_entry_snd s : snd (get_entry s) = s.
Proof.
  unfold get_entry, bind, lineEdit_text, lift.
  destruct (parse_number (lineEdit s)); reflexivity.
Qed.

Lemma get_mathsign_some s sign :
  fst (get_mathsign s) = Ok (Some sign) -> label s <> "".
Proof.
  unfold get_mathsign, bind, label_text, ret. intros H E.
  rewrite E in H. cbn in H. discriminate.
Qed.

(** *** [calculate] *)

Lemma bind_reader {A B} (m : M A) (k : A -> M B) s :
  snd (m s) = s ->
  bind m k s =
  match fst (m s) with Ok a => k a s | Raise e => (Raise e, s) end.
Proof. unfold bind. destruct (m s) as [[a|e] s']; cbn; intros ->; reflexivity. Qed.

Lemma bind_lift {A B} (r : result A) (k : A -> M B) s :
  bind (lift r) k s =
  match r with Ok a => k a s | Raise e => (Raise e, s) end.
Proof. unfold bind, lift. destruct r; reflexivity. Qed.

Lemma bind_lineEdit_text {B} (k : string -> M B) s :
  bind lineEdit_text k s = k (lineEdit s) s.
Proof. reflexivity. Qed.

Lemma bind_label_text {B} (k : string -> M B) s :
  bind label_text k s = k (label s) s.
Proof. reflexivity. Qed.

Ltac raised := left; eexists; reflexivity.

(** The [try] block writes only at its end: it either raises with the
    state untouched, or succeeds and leaves the buttons as they
    were. *)
Lemma calculate_try_cases s :
  (exists e, calculate_try s = (Raise e, s))
  \/ (exists res lbl,
        calculate_try s =
        (Ok (Some res), mkState res lbl true (disabled s))).
Proof.
  unfold calculate_try.
  rewrite (bind_reader _ _ _ (get_mathsign_snd s)).
  destruct (fst (get_mathsign s)) as [sign|e] eqn:Hsign; [|raised].
  rewrite bind_lift.
  destruct (operations sign) as [op|e]; [|raised].
  rewrite (bind_reader _ _ _ (get_temp_snd s)).
  destruct (fst (get_temp s)) as [temp|e] eqn:Htemp; [|raised].
  rewrite (bind_reader _ _ _ (get_entry_snd s)).
  destruct (fst (get_entry s)) as [entry|e]; [|raised].
  rewrite bind_lift.
  destruct (apply_op op temp entry) as [v|e]; [|raised].
  rewrite bind_lift.
  destruct (str v) as [text|e]; [|raised].
  rewrite bind_lift.
  destruct (remove_zeros text) as [res|e]; [|raised].
  rewrite (bind_reader _ _ _ (get_temp_snd s)), Htemp.
  rewrite bind_lift.
  destruct (fmt_opt_num temp) as [left|e]; [|raised].
  rewrite (bind_reader _ _ _ (get_mathsign_snd s)), Hsign.
  right. eexists. eexists. reflexivity.
Qed.

(** [calculate] either leaves the buttons as they were, or shows an
    error message next to the pending expression it found. *)
Lemma calculate_cases s :
  disabled (snd (calculate s)) = disabled s
  \/ (disabled (snd (calculate s)) = true
      /\ is_error_text (lineEdit (snd (calculate s))) = true
      /\ label (snd (calculate s)) = label s
      /\ label s <> "").
Proof.
  unfold calculate. rewrite bind_label_text.
  destruct (String.eqb_spec (label s) "") as [E|E]; [left; reflexivity|].
  unfold try_except.
  destruct (calculate_try_cases s) as [[e ->]|(res & lbl & ->)];
    [|left; reflexivity].
  destruct e; try (left; reflexivity).
  cbn [calculate_except].
  rewrite (bind_reader _ _ _ (get_temp_snd s)).
  destruct (fst (get_temp s)) as [temp|e]; [|left; reflexivity].
  right. destruct (opt_eq_zero temp); cbn; auto.
Qed.

(** *** [math_operation] *)

(** With an empty label the entry moves to the label and is reset. *)
Lemma math_operation_empty sign s :
  label s = "" ->
  math_operation sign s =
  match remove_zeros (lineEdit s) with
  | Ok z => (Ok tt, mkState "0" (z ++ " " ++ sign) false (disabled s))
  | Raise e => (Raise e, s)
  end.
Proof.
  intros E. unfold math_operation.
  rewrite bind_label_text, E. cbn [String.eqb].
  cbv [bind lineEdit_text lift].
  destruct (remove_zeros (lineEdit s)) as [z|e]; reflexivity.
Qed.

(** With a pending expression only the label and the flag are
    written. *)
Lemma math_operation_pending sign s :
  label s <> "" ->
  (exists e, math_operation sign s = (Raise e, s))
  \/ (exists lbl,
        math_operation sign s =
        (Ok tt, mkState (lineEdit s) lbl false (disabled s))).
Proof.
  intros E.
  assert (H : math_operation sign s =
    match fst (get_mathsign s) with
    | Ok cur =>
        if match cur with Some c => String.eqb c "=" | None => false end
        then match remove_zeros (lineEdit s) with
             | Ok z => (Ok tt, mkState (lineEdit s) (z ++ " " ++ sign)
                                       false (disabled s))
             | Raise e => (Raise e, s)
             end
        else (Ok tt, mkState (lineEdit s)
                             (PyStr.drop_last 1 (label s) ++ sign)
                             false (disabled s))
    | Raise e => (Raise e, s)
    end).
  { unfold math_operation. rewrite bind_label_text.
    destruct (String.eqb_spec (label s) "") as [E'|_]; [contradiction|].
    unfold bind at 1.
    rewrite (bind_reader _ _ _ (get_mathsign_snd s)).
    destruct (fst (get_mathsign s)) as [cur|e]; [|reflexivity].
    destruct (match cur with Some c => String.eqb c "=" | None => false end).
    - cbv [bind lineEdit_text lift].
      destruct (remove_zeros (lineEdit s)) as [z|e]; reflexivity.
    - reflexivity. }
  rewrite H.
  destruct (fst (get_mathsign s)) as [cur|e]; [|raised].
  destruct (match cur with Some c => String.eqb c "=" | None => false end).
  - destruct (remove_zeros (lineEdit s)) as [z|e]; [|raised].
    right. eexists. reflexivity.
  - right. eexists. reflexivity.
Qed.

Lemma math_operation_disabled sign s :
  disabled (snd (math_operation sign s)) = disabled s.
Proof.
  destruct (String.eqb_spec (label s) "") as [E|E].
  - rewrite (math_operation_empty sign s E).
    destruct (remove_zeros (lineEdit s)); reflexivity.
  - destruct (math_operation_pending sign s E) as [[e ->]|[lbl ->]];
      reflexivity.
Qed.

(** Operator substitution: while the expression is being built, the
    last character of the label is replaced by the new sign. *)
Lemma math_operation_substitutes sign s cur :
  fst (get_mathsign s) = Ok (Some cur) -> cur <> "=" ->
  math_operation sign s =
  (Ok tt, mkState (lineEdit s) (PyStr.drop_last 1 (label s) ++ sign)
                  false (disabled s)).
Proof.
  intros Hc Hne. pose proof (get_mathsign_some _ _ Hc) as E.
  unfold math_operation. rewrite bind_label_text.
  destruct (String.eqb_spec (label s) "") as [E'|_]; [contradiction|].
  unfold bind at 1.
  rewrite (bind_reader _ _ _ (get_mathsign_snd s)), Hc.
  destruct (String.eqb_spec cur "=") as [E'|_]; [contradiction|].
  reflexivity.
Qed.

(** *** The buttons stay enabled unless an error is on display *)

Lemma without_error_inv s :
  error_shown_if_disabled s -> disabled (without_error s) = false.
Proof.
  unfold error_shown_if_disabled, without_error. intros K.
  destruct (is_error_text (lineEdit s)) eqn:E; [reflexivity|].
  destruct (disabled s); [|reflexivity].
  destruct (K eq_refl) as [K' _]. discriminate.
Qed.

Lemma click_enabled b m s :
  slot b = Some m -> disabled s = false ->
  snd (click b s) = snd (m s).
Proof.
  intros Hm Hs. unfold click. rewrite Hs, andb_false_r, Hm.
  destruct (m s) as [[r|e] s']; reflexivity.
Qed.

Lemma click_calc s :
  disabled s = false -> snd (click btn_calc s) = snd (calculate s).
Proof.
  intros Hs. rewrite (click_enabled btn_calc _ s eq_refl Hs).
  unfold bind. destruct (calculate s) as [[r|e] s']; reflexivity.
Qed.

Lemma click_add s :
  disabled s = false -> snd (click btn_add s) = snd (math_operation "+" s).
Proof. apply click_enabled. reflexivity. Qed.

Lemma click_sub s :
  disabled s = false -> snd (click btn_sub s) = snd (math_operation "-" s).
Proof. apply click_enabled. reflexivity. Qed.

Lemma click_mul s :
  disabled s = false -> snd (click btn_mul s) = snd (math_operation "*" s).
Proof. apply click_enabled. reflexivity. Qed.

Lemma click_div s :
  disabled s = false -> snd (click btn_div s) = snd (math_operation "/" s).
Proof. apply click_enabled. reflexivity. Qed.

Lemma click_inv b s :
  error_shown_if_disabled s -> error_shown_if_disabled (snd (click b s)).
Proof.
  intros K.
  destruct (is_operation b && disabled s) eqn:Hgate.
  { unfold click. rewrite Hgate. exact K. }
  assert (Hfalse : forall t, disabled t = false -> error_shown_if_disabled t)
    by (intros t Ht Hd; congruence).
  destruct b.
  - destruct (Nat.ltb_spec i 10) as [Hi|Hi].
    + rewrite (click_num i s Hi). apply Hfalse, without_error_inv, K.
    + unfold click. cbn [is_operation andb slot].
      apply Nat.ltb_ge in Hi. rewrite Hi. exact K.
  - rewrite click_clear. apply Hfalse. cbn. apply without_error_inv, K.
  - rewrite click_point. exact K.
  - rewrite click_neg. exact K.
  - rewrite click_backspace. apply Hfalse, without_error_inv, K.
  - cbn in Hgate. rewrite (click_calc s Hgate).
    destruct (calculate_cases s) as [C|(C1 & C2 & C3 & C4)].
    + apply Hfalse. congruence.
    + intros _. split; [exact C2 | congruence].
  - cbn in Hgate. rewrite (click_add s Hgate).
    apply Hfalse. rewrite math_operation_disabled. exact Hgate.
  - cbn in Hgate. rewrite (click_sub s Hgate).
    apply Hfalse. rewrite math_operation_disabled. exact Hgate.
  - cbn in Hgate. rewrite (click_mul s Hgate).
    apply Hfalse. rewrite math_operation_disabled. exact Hgate.
  - cbn in Hgate. rewrite (click_div s Hgate).
    apply Hfalse. rewrite math_operation_disabled. exact Hgate.
Qed.

Lemma reachable_inv s : reachable s -> error_shown_if_disabled s.
Proof.
  induction 1 as [|b s _ IH].
  - intros H. discriminate.
  - apply click_inv, IH.
Qed.

Lemma reachable_run bs s : reachable s -> reachable (run bs s).
Proof.
  revert s. induction bs as [|b bs IH]; intros s H; [exact H|].
  cbn. apply IH. constructor. exact H.
Qed.

(** *** The statements after [clear_temp]

    What the handlers would go on to do; the call of [clear_temp] in
    front of them never returns. *)

Lemma add_digit_body_replaces digit s :
  is_result_shown s = true \/ lineEdit s = "0" ->
  add_digit_body digit s =
  (Ok tt, mkState digit (label s) false (disabled s)).
Proof.
  intros H. unfold add_digit_body, reset_if_result_shown.
  cbv [bind get_is_result_shown lineEdit_text lineEdit_setText
       set_is_result_shown adjust_entry_font_size ret].
  destruct s as [e l f d]. cbn in *.
  destruct f; cbn; [reflexivity|].
  destruct H as [H|H]; [discriminate|]. subst e. reflexivity.
Qed.

Lemma startswith_minus c r :
  PyStr.startswith "-" (String c r) = Ascii.eqb c "-".
Proof.
  unfold PyStr.startswith. cbn [String.prefix].
  destruct (Ascii.ascii_dec "-" c) as [E|E];
    destruct (Ascii.eqb_spec c "-"); try congruence.
  destruct r; reflexivity.
Qed.

(** The toggle undoes itself, except on "-0" (which it turns into "0")
    and on texts with two leading signs. *)
Lemma toggle_sign_involutive entry :
  entry <> "-0" -> PyStr.startswith "--" entry = false ->
  toggle_sign (toggle_sign entry) = entry.
Proof.
  intros H0 H2. unfold toggle_sign.
  destruct entry as [|c r]; [reflexivity|].
  rewrite startswith_minus.
  destruct (Ascii.eqb_spec c "-") as [->|Hc].
  - cbn [PyStr.tail].
    destruct r as [|c' r']; [reflexivity|].
    rewrite startswith_minus.
    assert (Hc' : Ascii.eqb c' "-" = false).
    { unfold PyStr.startswith in H2. cbn [String.prefix] in H2.
      destruct (Ascii.ascii_dec "-" "-") as [_|n]; [|contradiction].
      destruct (Ascii.ascii_dec "-" c') as [E|E].
      - destruct r'; discriminate.
      - destruct (Ascii.eqb_spec c' "-"); congruence. }
    rewrite Hc'.
    destruct (String.eqb_spec (String c' r') "0") as [E|E].
    + exfalso. apply H0. rewrite E. reflexivity.
    + reflexivity.
  - destruct (String.eqb_spec (String c r) "0") as [E|E]; cbn [negb].
    + rewrite startswith_minus.
      destruct (Ascii.eqb_spec c "-"); [contradiction|].
      rewrite E. reflexivity.
    + cbn [append]. rewrite startswith_minus. reflexivity.
Qed.

(** [calculate] on the states the spec's scenarios expect. *)
Example calculate_12_plus_3 :
  calculate (mkState "3" "12 +" false false) =
  (Ok (Some "15"), mkState "15" "12 + 3 =" true false).
Proof. vm_compute. reflexivity. Qed.

Example math_operation_5_plus_minus :
  math_operation "-" (mkState "0" "5 +" false false) =
  (Ok tt, mkState "0" "5 -" false false).
Proof. vm_compute. reflexivity. Qed.

Example calculate_5_minus_3 :
  calculate (mkState "3" "5 -" false false) =
  (Ok (Some "2"), mkState "2" "5 - 3 =" true false).
Proof. vm_compute. reflexivity. Qed.

(** *** Claims *)

(** C1.  [add_digit], [add_point], [negate] and [backspace] call
    [self.clear_temp()], a name bound nowhere in the class: in every
    state each of them raises [AttributeError] before the statements
    that edit the entry are reached.  What is written by then is what
    [remove_error], called first by [add_digit] and [backspace], has
    written. *)
Theorem handlers_raise_at_clear_temp :
  has_attr "clear_temp" = false /\
  forall s : state,
    (forall digit,
        add_digit digit s = (Raise AttributeError, snd (remove_error s)))
    /\ add_point s = (Raise AttributeError, s)
    /\ negate s = (Raise AttributeError, s)
    /\ backspace s = (Raise AttributeError, snd (remove_error s)).
Proof.
  split; [reflexivity|]. intros s. rewrite remove_error_spec. cbn [snd].
  split; [|split; [|split]].
  - intros digit. apply add_digit_raises.
  - apply add_point_raises.
  - apply negate_raises.
  - apply backspace_raises.
Qed.

(** C2.  On the code, the clicks 1, 2, +, 3, = from the initial state
    end with the entry "0" and the expression "0 + 0 =" (not "15" and
    "12 + 3 ="): each of the three digit clicks raises
    [AttributeError] and enters nothing. *)
Theorem scenario_12_plus_3_on_the_code :
  run [btn_num 1; btn_num 2; btn_add; btn_num 3; btn_calc] init
  = mkState "0" "0 + 0 =" true false
  /\ reported [btn_num 1; btn_num 2; btn_add; btn_num 3; btn_calc] init
     = [AttributeError; AttributeError; AttributeError].
Proof. vm_compute. split; reflexivity. Qed.

Lemma truediv_by_zero l r :
  eq_zero r = true -> fits_double l -> truediv l r = Raise ZeroDivisionError.
Proof.
  intros Hr [x Hx]. destruct l as [a|a], r as [b|b]; cbn in Hr.
  - cbn. rewrite Hr. reflexivity.
  - unfold truediv. rewrite Hx. cbn. rewrite Hr. reflexivity.
  - apply Z.eqb_eq in Hr. subst b. reflexivity.
  - cbn. rewrite Hr. reflexivity.
Qed.

Lemma error_state_clicks s :
  error_state s ->
  (forall b, clears_error b = true ->
             lineEdit (snd (click b s)) = "0"
             /\ disabled (snd (click b s)) = false)
  /\ (forall b, clears_error b = false -> snd (click b s) = s).
Proof.
  intros [He Hd]. split; intros b Hb.
  - destruct b; try discriminate Hb.
    + cbn [clears_error] in Hb. apply Nat.ltb_lt in Hb.
      rewrite (click_num _ _ Hb).
      rewrite (without_error_no_error _ He). split; reflexivity.
    + rewrite click_clear, (without_error_no_error _ He).
      split; reflexivity.
    + rewrite click_backspace, (without_error_no_error _ He).
      split; reflexivity.
  - destruct b; try discriminate Hb;
      try (rewrite click_disabled; [reflexivity | reflexivity | exact Hd]).
    + unfold click. cbn [is_operation andb slot].
      cbn [clears_error] in Hb. rewrite Hb. reflexivity.
    + reflexivity.
    + reflexivity.
Qed.

(** C3.  When the pending operator is "/", both operands parse and
    the right one is zero, [calculate] shows "Result is undefined" if
    the left operand is zero and "Division by zero" otherwise, in
    place of the entry, and disables the operation buttons; no
    exception leaves it.  In that state a digit, backspace or clear
    click resets the entry to "0" and enables the buttons again, and
    every other click leaves the state as it is. *)
Theorem division_by_zero_enters_error_state :
  forall (s : state) (l r : num),
    fst (get_mathsign s) = Ok (Some "/") ->
    fst (get_temp s) = Ok (Some l) ->
    fst (get_entry s) = Ok r ->
    eq_zero r = true ->
    fits_double l ->
    calculate s =
    (Ok None,
     mkState (if eq_zero l then ERROR_UNDEFINED else ERROR_ZERO_DIV)
             (label s) (is_result_shown s) true)
    /\ error_state (snd (calculate s))
    /\ (forall b, clears_error b = true ->
                  lineEdit (snd (click b (snd (calculate s)))) = "0"
                  /\ disabled (snd (click b (snd (calculate s)))) = false)
    /\ (forall b, clears_error b = false ->
                  snd (click b (snd (calculate s))) = snd (calculate s)).
Proof.
  intros s l r Hsign Htemp Hentry Hr Hl.
  assert (Hcalc : calculate s =
    (Ok None,
     mkState (if eq_zero l then ERROR_UNDEFINED else ERROR_ZERO_DIV)
             (label s) (is_result_shown s) true)).
  { pose proof (get_mathsign_some _ _ Hsign) as E.
    unfold calculate. rewrite bind_label_text.
    destruct (String.eqb_spec (label s) "") as [E'|_]; [contradiction|].
    assert (Htry : calculate_try s = (Raise ZeroDivisionError, s)).
    { unfold calculate_try.
      rewrite (bind_reader _ _ _ (get_mathsign_snd s)), Hsign.
      rewrite bind_lift. cbn [operations String.eqb Ascii.eqb Bool.eqb].
      rewrite (bind_reader _ _ _ (get_temp_snd s)), Htemp.
      rewrite (bind_reader _ _ _ (get_entry_snd s)), Hentry.
      rewrite bind_lift. cbn [apply_op].
      rewrite (truediv_by_zero _ _ Hr Hl). reflexivity. }
    unfold try_except. rewrite Htry. cbn [calculate_except].
    rewrite (bind_reader _ _ _ (get_temp_snd s)), Htemp.
    cbn [opt_eq_zero]. destruct (eq_zero l); reflexivity. }
  assert (Herr : error_state (snd (calculate s))).
  { rewrite Hcalc. cbn [snd]. split; [|reflexivity].
    cbn [lineEdit]. destruct (eq_zero l); reflexivity. }
  split; [exact Hcalc|]. split; [exact Herr|].
  apply error_state_clicks, Herr.
Qed.

Lemma division_by_zero_enters_error_state_witness :
  calculate (mkState "0" "5 /" false false) =
  (Ok None, mkState ERROR_ZERO_DIV "5 /" false true).
Proof.
  refine (proj1 (division_by_zero_enters_error_state
                   (mkState "0" "5 /" false false) (PyInt 5) (PyInt 0)
                   _ _ _ _ _)).
  - vm_compute. reflexivity.
  - vm_compute. reflexivity.
  - vm_compute. reflexivity.
  - reflexivity.
  - exists (PyFloat.Ffin false 5629499534213120 (-50)). vm_compute.
    reflexivity.
Defined.

(** C4.  On the code, [add_digit] raises [AttributeError] in front of
    its reset: with a result on display (the state the clicks +, =
    lead to, or the spec's "15") the entry and the flag stay as they
    were, and in the initial state "5" does not replace the lone
    "0". *)
Theorem add_digit_after_result_on_the_code :
  run [btn_add; btn_calc] init = mkState "0" "0 + 0 =" true false
  /\ add_digit "5" (mkState "0" "0 + 0 =" true false)
     = (Raise AttributeError, mkState "0" "0 + 0 =" true false)
  /\ add_digit "7" (mkState "15" "12 + 3 =" true false)
     = (Raise AttributeError, mkState "15" "12 + 3 =" true false)
  /\ add_digit "5" init = (Raise AttributeError, init).
Proof. vm_compute. repeat split; reflexivity. Qed.

(** C5.  On the code, the clicks 5, +, -, 3, = from the initial state
    evaluate "0 - 0" and show "0" (not "2"): the operator is replaced
    as described, the two digit clicks raise [AttributeError]. *)
Theorem scenario_5_plus_minus_3_on_the_code :
  run [btn_num 5; btn_add; btn_sub; btn_num 3; btn_calc] init
  = mkState "0" "0 - 0 =" true false
  /\ run [btn_num 5; btn_add; btn_sub] init = mkState "0" "0 -" false false
  /\ reported [btn_num 5; btn_add; btn_sub; btn_num 3; btn_calc] init
     = [AttributeError; AttributeError].
Proof. vm_compute. repeat split; reflexivity. Qed.

(** C6, as the spec states it, fails: after the clicks /, = the
    window is in ErrorState and the pending expression "0 /" is still
    on display. *)
Lemma error_state_with_pending_expression :
  reachable (run [btn_div; btn_calc] init)
  /\ error_state (run [btn_div; btn_calc] init)
  /\ label (run [btn_div; btn_calc] init) = "0 /"
  /\ ~ (forall s, reachable s -> error_state s -> label s = "").
Proof.
  assert (R : reachable (run [btn_div; btn_calc] init))
    by (apply reachable_run, reach_init).
  assert (E : error_state (run [btn_div; btn_calc] init))
    by (split; vm_compute; reflexivity).
  split; [exact R|]. split; [exact E|].
  split; [vm_compute; reflexivity|].
  intros H. specialize (H _ R E). vm_compute in H. discriminate H.
Qed.

(** C6, amended.  ErrorState comes with a pending expression:
    [calculate] leaves the label as it was when it enters ErrorState,
    so in every reachable state in ErrorState the label is not empty;
    the next digit click clears the error (no error message in the
    entry, buttons enabled) and still leaves the label. *)
Theorem error_state_keeps_pending_expression :
  (forall s, disabled s = false -> error_state (snd (calculate s)) ->
             label (snd (calculate s)) = label s /\ label s <> "")
  /\ (forall s, reachable s -> error_state s ->
        label s <> ""
        /\ forall i, (i < 10)%nat ->
             is_error_text (lineEdit (snd (click (btn_num i) s))) = false
             /\ disabled (snd (click (btn_num i) s)) = false
             /\ label (snd (click (btn_num i) s)) = label s).
Proof.
  split.
  - intros s Hs [_ Hd].
    destruct (calculate_cases s) as [C|(_ & _ & C3 & C4)].
    + congruence.
    + split; assumption.
  - intros s R [He Hd]. split.
    + apply (reachable_inv s R Hd).
    + intros i Hi. rewrite (click_num i s Hi).
      rewrite (without_error_no_error _ He). repeat split.
Qed.

Lemma error_state_keeps_pending_expression_witness :
  (label (snd (calculate (mkState "0" "0 /" false false))) = "0 /"
   /\ "0 /" <> "")
  /\ label (run [btn_div; btn_calc] init) <> ""
  /\ is_error_text
       (lineEdit (snd (click (btn_num 7) (run [btn_div; btn_calc] init))))
     = false.
Proof.
  assert (R : reachable (run [btn_div; btn_calc] init))
    by (apply reachable_run, reach_init).
  assert (E : error_state (run [btn_div; btn_calc] init))
    by (split; vm_compute; reflexivity).
  split.
  - apply (proj1 error_state_keeps_pending_expression
                 (mkState "0" "0 /" false false) eq_refl).
    split; vm_compute; reflexivity.
  - destruct (proj2 error_state_keeps_pending_expression _ R E) as [L D].
    split; [exact L|].
    apply (D 7%nat). repeat constructor.
Defined.


(** C10.  On the code the digit after an operator is not entered at
    all: from the initial state the clicks +, =, + leave the result "0"
    on display with the label "0 +", and the click on 3 that follows
    raises [AttributeError] and leaves the entry; the statements after
    [clear_temp] would have written the digit ("3" on the lone "0",
    "153" on a result "15"). *)
Theorem digit_after_operator_on_the_code :
  run [btn_add; btn_calc; btn_add] init = mkState "0" "0 +" false false
  /\ run [btn_add; btn_calc; btn_add; btn_num 3] init
     = mkState "0" "0 +" false false
  /\ reported [btn_add; btn_calc; btn_add; btn_num 3] init = [AttributeError]
  /\ add_digit_body "3" (mkState "0" "0 +" false false)
     = (Ok tt, mkState "3" "0 +" false false)
  /\ add_digit "3" (mkState "15" "15 +" false false)
     = (Raise AttributeError, mkState "15" "15 +" false false)
  /\ add_digit_body "3" (mkState "15" "15 +" false false)
     = (Ok tt, mkState "153" "15 +" false false).
Proof. vm_compute. repeat split; reflexivity. Qed.

(** X22.  With a pending expression on display, [math_operation]
    writes the label and the flag only: the entry and the buttons stay
    as they were.  In particular, after an operator on a finalized
    expression (ending in "=") the entry still shows the result, the
    label holds that result and the operator, and the flag is
    cleared. *)
Theorem math_operation_leaves_entry :
  forall (s : state) (sign : string),
    label s <> "" ->
    lineEdit (snd (math_operation sign s)) = lineEdit s
    /\ disabled (snd (math_operation sign s)) = disabled s
    /\ (forall z,
           fst (get_mathsign s) = Ok (Some "=") ->
           remove_zeros (lineEdit s) = Ok z ->
           math_operation sign s =
           (Ok tt, mkState (lineEdit s) (z ++ " " ++ sign) false
                           (disabled s))).
Proof.
  intros s sign E. split; [|split].
  - destruct (math_operation_pending sign s E) as [[e ->]|[lbl ->]];
      reflexivity.
  - apply math_operation_disabled.
  - intros z Hsign Hz. unfold math_operation. rewrite bind_label_text.
    destruct (String.eqb_spec (label s) "") as [E'|_]; [contradiction|].
    unfold bind at 1.
    rewrite (bind_reader _ _ _ (get_mathsign_snd s)), Hsign.
    cbn [String.eqb Ascii.eqb Bool.eqb]. cbv [bind lineEdit_text lift].
    rewrite Hz. reflexivity.
Qed.

Lemma math_operation_leaves_entry_witness :
  math_operation "-" (mkState "15" "12 + 3 =" true false)
  = (Ok tt, mkState "15" "15 -" false false).
Proof.
  refine (proj2 (proj2 (math_operation_leaves_entry
                          (mkState "15" "12 + 3 =" true false) "-" _))
                "15" _ _).
  - discriminate.
  - vm_compute. reflexivity.
  - vm_compute. reflexivity.
Defined.

End CalculatorProps.

(* ===================================================================== *)
(** ** Properties of the currency client                                 *)
(* ===================================================================== *)

Module CurrencyConverterProps.
Import Py PyNum CurrencyConverter.
Local Open Scope io_scope.

Lemma quiet_ret {A} (a : A) : quiet (ret a).
Proof. intros w. reflexivity. Qed.

Lemma quiet_lift {A} (r : result A) : quiet (lift r).
Proof. intros w. reflexivity. Qed.

Lemma quiet_bind {A B} (m : W A) (k : A -> W B) :
  quiet m -> (forall a, quiet (k a)) -> quiet (bind m k).
Proof.
  intros Hm Hk w. unfold bind. specialize (Hm w).
  destruct (m w) as [[a|e] w']; cbn [snd] in *.
  - rewrite Hk. exact Hm.
  - exact Hm.
Qed.

Lemma quiet_print line : quiet (print line).
Proof. intros w. reflexivity. Qed.

Lemma quiet_input prompt : quiet (input prompt).
Proof.
  intros w. unfold input, bind, emit. cbn.
  destruct (stdin w); reflexivity.
Qed.

Create HintDb quiet.
#[local] Hint Resolve quiet_ret quiet_lift quiet_print quiet_input : quiet.

Section MissingKey.

Variable API_KEY : option string.
Variable http : nat -> string -> result json.
Variable py_str : json -> string.
Hypothesis no_key : API_KEY = None \/ API_KEY = Some "".

Lemma key_is_missing : key_missing API_KEY = true.
Proof. destruct no_key as [-> | ->]; reflexivity. Qed.

Lemma api_get_json_raises endpoint timeout w :
  api_get_json API_KEY http endpoint timeout w
  = (Raise (RuntimeError CONFIG_ERROR), w).
Proof. unfold api_get_json. rewrite key_is_missing. reflexivity. Qed.

Lemma get_currencies_raises w :
  get_currencies API_KEY http w = (Raise (RuntimeError CONFIG_ERROR), w).
Proof.
  unfold get_currencies, bind. rewrite api_get_json_raises. reflexivity.
Qed.

Lemma exchange_rate_raises cur1 cur2 w :
  exchange_rate API_KEY http py_str cur1 cur2 w
  = (Raise (RuntimeError CONFIG_ERROR), w).
Proof.
  unfold exchange_rate, bind. rewrite api_get_json_raises. reflexivity.
Qed.

Lemma convert_raises cur1 cur2 amount w :
  convert API_KEY http py_str cur1 cur2 amount w
  = (Raise (RuntimeError CONFIG_ERROR), w).
Proof.
  unfold convert, bind. rewrite exchange_rate_raises. reflexivity.
Qed.

Lemma quiet_print_currencies cs : quiet (print_currencies py_str cs).
Proof.
  induction cs as [|[k c] cs IH]; cbn [print_currencies].
  - apply quiet_ret.
  - do 3 (apply quiet_bind; [apply quiet_lift | intros ?]).
    apply quiet_bind; [apply quiet_print | intros _; exact IH].
Qed.

Lemma quiet_of_eq {A} (m : W A) r :
  (forall w, m w = (r, w)) -> quiet m.
Proof. intros H w. rewrite H. reflexivity. Qed.

Lemma quiet_dispatch command c :
  quiet (dispatch API_KEY http py_str command c).
Proof.
  unfold dispatch.
  destruct (String.eqb command "list").
  { apply quiet_bind.
    - destruct c; [apply quiet_ret|].
      apply (quiet_of_eq _ _ get_currencies_raises).
    - intros a. apply quiet_bind; [apply quiet_print_currencies|].
      intros _. apply quiet_ret. }
  destruct (String.eqb command "convert").
  { do 3 (apply quiet_bind; [apply quiet_input | intros ?]).
    apply quiet_bind; [|intros ?; apply quiet_ret].
    apply (quiet_of_eq _ _ (convert_raises _ _ _)). }
  destruct (String.eqb command "rate").
  { do 2 (apply quiet_bind; [apply quiet_input | intros ?]).
    apply quiet_bind; [|intros ?; apply quiet_ret].
    apply (quiet_of_eq _ _ (exchange_rate_raises _ _)). }
  apply quiet_bind; [auto with quiet | intros ?; apply quiet_ret].
Qed.

Lemma quiet_loop_body c : quiet (loop_body API_KEY http py_str c).
Proof.
  unfold loop_body. apply quiet_bind; [auto with quiet|]. intros line.
  destruct (String.eqb (PyStr.lower (PyStr.strip line)) "q");
    [apply quiet_ret|].
  intros w. pose proof (quiet_dispatch (PyStr.lower (PyStr.strip line)) c w) as D.
  destruct (dispatch API_KEY http py_str (PyStr.lower (PyStr.strip line)) c w)
    as [[a|e] w']; cbn [snd] in *; [exact D|].
  destruct e; exact D.
Qed.

Lemma quiet_loop fuel : forall c, quiet (loop API_KEY http py_str fuel c).
Proof.
  induction fuel as [|f IH]; intros c; cbn [loop].
  - apply quiet_ret.
  - apply quiet_bind; [apply quiet_loop_body|].
    intros [|c']; [apply quiet_ret | apply IH].
Qed.

Lemma run_main_quiet lines :
  requests (trace (snd (run_main API_KEY http py_str lines))) = 0%nat.
Proof.
  unfold run_main, main.
  assert (Q : quiet (print GREETING ;;
                     fun w => loop API_KEY http py_str
                                   (S (List.length (stdin w))) None w)).
  { apply quiet_bind; [auto with quiet|]. intros _ w. apply quiet_loop. }
  rewrite Q. reflexivity.
Qed.

(** One turn of the loop on a command that calls the service: the
    prompts, then the configuration error, then [break]. *)
Lemma loop_body_breaks c w line rest :
  stdin w = line :: rest ->
  touches_api (PyStr.lower (PyStr.strip line)) c = true ->
  (args_needed (PyStr.lower (PyStr.strip line)) <= List.length rest)%nat ->
  exists prompts,
    loop_body API_KEY http py_str c w =
    (Ok Break,
     mkWorld (skipn (args_needed (PyStr.lower (PyStr.strip line))) rest)
             (Print CONFIG_ERROR :: prompts ++ trace w))
    /\ requests prompts = 0%nat.
Proof.
  destruct w as [inp tr]. cbn [stdin trace]. intros -> Hcmd Hargs.
  remember (PyStr.lower (PyStr.strip line)) as command eqn:Ecmd.
  assert (Hbody :
    loop_body API_KEY http py_str c (mkWorld (line :: rest) tr) =
    (if String.eqb command "q" then ret Break
     else
       fun w =>
         match dispatch API_KEY http py_str command c w with
         | (Ok c', w') => (Ok (Continue c'), w')
         | (Raise (RequestException msg), w')
         | (Raise (JSONDecodeError msg), w') =>
             (print ("Network/API error: " ++ msg) ;;
              ret (Continue c)) w'
         | (Raise (RuntimeError msg), w') => (print msg ;; ret Break) w'
         | (Raise ValueError, w') =>
             (print "Failed to parse API response." ;;
              ret (Continue c)) w'
         | (Raise e, w') => (Raise e, w')
         end)
      (mkWorld rest (Prompt "Enter a command (q to quit): " :: tr))).
  { unfold loop_body. rewrite Ecmd. reflexivity. }
  rewrite Hbody. clear Hbody Ecmd.
  unfold touches_api, args_needed in *. unfold dispatch.
  destruct (String.eqb_spec command "convert") as [E|_].
  { subst command. cbn [String.eqb Ascii.eqb Bool.eqb] in *.
    destruct rest as [|a [|b [|d rest']]]; cbn in Hargs; try lia.
    cbv [bind input emit stdin trace].
    rewrite convert_raises.
    eexists [_; _; _; _]. split; reflexivity. }
  destruct (String.eqb_spec command "rate") as [E|_].
  { subst command. cbn [String.eqb Ascii.eqb Bool.eqb] in *.
    destruct rest as [|a [|b rest']]; cbn in Hargs; try lia.
    cbv [bind input emit stdin trace].
    rewrite exchange_rate_raises.
    eexists [_; _; _]. split; reflexivity. }
  destruct (String.eqb_spec command "list") as [E|_];
    [|discriminate Hcmd].
  destruct c; [discriminate Hcmd|].
  subst command. cbn [String.eqb Ascii.eqb Bool.eqb] in *.
  cbv [bind]. rewrite get_currencies_raises.
  eexists [_]. split; reflexivity.
Qed.

End MissingKey.

(** C8.  With [CURRENCY_API_KEY] unset or empty, [api_get_json] raises
    the configuration error without sending anything; no run of the
    program sends a request; and a command that calls the service
    ("convert", "rate", or "list" with nothing cached) has the error
    message printed last and ends the loop, the rest of the input
    unread. *)
Theorem missing_api_key_is_fatal :
  forall (API_KEY : option string) (http : nat -> string -> result json)
         (py_str : json -> string),
    API_KEY = None \/ API_KEY = Some "" ->
    (forall endpoint timeout w,
        api_get_json API_KEY http endpoint timeout w
        = (Raise (RuntimeError CONFIG_ERROR), w))
    /\ (forall lines,
           requests (trace (snd (run_main API_KEY http py_str lines)))
           = 0%nat)
    /\ (forall c w line rest fuel,
           stdin w = line :: rest ->
           touches_api (PyStr.lower (PyStr.strip line)) c = true ->
           (args_needed (PyStr.lower (PyStr.strip line))
            <= List.length rest)%nat ->
           exists prompts,
             loop API_KEY http py_str (S fuel) c w =
             (Ok tt,
              mkWorld
                (skipn (args_needed (PyStr.lower (PyStr.strip line))) rest)
                (Print CONFIG_ERROR :: prompts ++ trace w))
             /\ requests prompts = 0%nat).
Proof.
  intros API_KEY http py_str Hkey. split; [|split].
  - intros endpoint timeout w. apply api_get_json_raises, Hkey.
  - intros lines. apply run_main_quiet, Hkey.
  - intros c w line rest fuel Hin Hcmd Hargs.
    destruct (loop_body_breaks API_KEY http py_str Hkey c w line rest
                               Hin Hcmd Hargs) as (prompts & Hb & Hq).
    exists prompts. split; [|exact Hq].
    cbn [loop]. unfold bind at 1. rewrite Hb. reflexivity.
Qed.

Lemma missing_api_key_is_fatal_witness :
  api_get_json None (fun _ _ => Ok JNull) "api/v7/currencies?apiKey=None"
               10 (mkWorld [] [])
  = (Raise (RuntimeError CONFIG_ERROR), mkWorld [] [])
  /\ requests (trace (snd (run_main None (fun _ _ => Ok JNull)
                                    (fun _ => "")
                                    ["rate"; "usd"; "eur"; "list"])))
     = 0%nat.
Proof.
  split.
  - apply (proj1 (missing_api_key_is_fatal
                    None (fun _ _ => Ok JNull) (fun _ => "")
                    (or_introl eq_refl))).
  - apply (proj1 (proj2 (missing_api_key_is_fatal
                           None (fun _ _ => Ok JNull) (fun _ => "")
                           (or_introl eq_refl)))).
Defined.

(** The run behind the witness, evaluated: the greeting, the prompts
    of "rate", the configuration error, and the end of the program
    with "list" still unread. *)
Example run_without_key :
  run_main None (fun _ _ => Ok JNull) (fun _ => "")
           ["rate"; "usd"; "eur"; "list"]
  = (Ok tt,
     mkWorld ["list"]
             [ Print CONFIG_ERROR;
               Prompt "Enter a currency to convert to: ";
               Prompt "Enter a currency you have: ";
               Prompt "Enter a command (q to quit): ";
               Print GREETING ]).
Proof. vm_compute. reflexivity. Qed.

End CurrencyConverterProps.

(* ===================================================================== *)
(** ** Properties of Rock-Paper-Scissors                                 *)
(* ===================================================================== *)

Module RPSProps.
Import RPS.

Lemma option_cases c :
  In c OPTIONS -> c = "rock" \/ c = "paper" \/ c = "scissors".
Proof.
  cbn. intros [H | [H | [H | []]]]; subst; auto.
Qed.

Ltac settle :=
  match goal with
  | |- _ <-> _ => split; intros; settle
  | |- _ /\ _ => split; settle
  | |- ~ _ => intros ?; settle
  | H : _ /\ _ |- _ => destruct H; settle
  | H : ?x <> ?x |- _ => contradiction H; reflexivity
  | H : ~ beats _ _ |- _ => contradiction H; constructor
  | H : beats _ _ |- _ => solve [inversion H]
  | H : In _ wins |- _ =>
      cbn in H; solve [intuition congruence]
  | |- In _ wins => cbn; solve [intuition congruence]
  | |- _ => first [ reflexivity | discriminate | constructor ]
  end.

(** C9.  For choices among rock, paper and scissors,
    [determine_winner] returns 0 exactly for equal choices, 1 exactly
    for the pairs (rock, scissors), (paper, rock), (scissors, paper),
    that is when the user's choice beats the computer's, and -1
    otherwise, that is when the computer's choice beats the
    user's. *)
Theorem determine_winner_spec :
  forall user computer : string,
    In user OPTIONS -> In computer OPTIONS ->
    (determine_winner user computer = 0 <-> user = computer)
    /\ (determine_winner user computer = 1 <-> In (user, computer) wins)
    /\ (determine_winner user computer = 1 <-> beats user computer)
    /\ (determine_winner user computer = -1 <->
        user <> computer /\ ~ beats user computer)
    /\ (determine_winner user computer = -1 <-> beats computer user).
Proof.
  intros user computer Hu Hc.
  destruct (option_cases _ Hu) as [-> | [-> | ->]];
    destruct (option_cases _ Hc) as [-> | [-> | ->]];
    vm_compute determine_winner; settle.
Qed.

Lemma determine_winner_spec_witness :
  determine_winner "rock" "scissors" = 1.
Proof.
  apply (proj1 (proj2 (proj2 (determine_winner_spec
                                 "rock" "scissors"
                                 (or_introl eq_refl)
                                 (or_intror (or_intror (or_introl eq_refl))))))).
  constructor.
Defined.

End RPSProps.

(* ===================================================================== *)
(** ** Further properties of the calculator                              *)
(* ===================================================================== *)

Module CalculatorMore.
Import Py PyNum Calculator CalculatorProps.
Local Open Scope py_scope.

(** *** [split] and the last word of a label *)

Lemma append_assoc (a b c : string) : ((a ++ b) ++ c = a ++ (b ++ c))%string.
Proof. induction a as [|x a IH]; cbn; [reflexivity | rewrite IH; reflexivity]. Qed.

Lemma last_opt_app {A} (l1 l2 : list A) x :
  PyStr.last_opt l2 = Some x -> PyStr.last_opt (l1 ++ l2) = Some x.
Proof.
  unfold PyStr.last_opt. rewrite rev_app_distr.
  destruct (rev l2) as [|y r]; [discriminate|]. cbn. auto.
Qed.

(** A word without whitespace is one run, joined to the run before. *)
Lemma split_aux_word t : forall cur,
  PyStr.no_space t = true -> (t <> "" \/ cur <> []) ->
  PyStr.split_aux t cur =
  [string_of_list_ascii (rev cur ++ list_ascii_of_string t)].
Proof.
  induction t as [|c t IH]; intros cur Hs Hne.
  - cbn. destruct cur; [destruct Hne; contradiction|].
    rewrite app_nil_r. reflexivity.
  - cbn in Hs. apply andb_prop in Hs. destruct Hs as [Hc Ht].
    cbn [PyStr.split_aux]. apply negb_true_iff in Hc. rewrite Hc.
    rewrite (IH (c :: cur) Ht) by (right; discriminate).
    cbn [rev list_ascii_of_string]. rewrite <- app_assoc. reflexivity.
Qed.

(** The last word of [x ++ " " ++ t] is [t]. *)
Lemma split_last_word t : PyStr.no_space t = true -> t <> "" ->
  forall x cur,
    PyStr.last_opt (PyStr.split_aux (x ++ " " ++ t) cur) = Some t.
Proof.
  intros Ht Hne. induction x as [|c x IH]; intros cur.
  - cbn [append PyStr.split_aux]. cbn [PyStr.is_space].
    change (PyStr.is_space " ") with true. cbv iota.
    apply last_opt_app. rewrite (split_aux_word t [] Ht) by (left; exact Hne).
    cbn [rev app]. rewrite string_of_list_ascii_of_string. reflexivity.
  - cbn [append PyStr.split_aux].
    destruct (PyStr.is_space c).
    + apply last_opt_app, IH.
    + apply IH.
Qed.

(** *** The states the window can reach *)

Lemma click_closed b s :
  In s reachable_states -> In (snd (click b s)) reachable_states.
Proof.
  intros H. cbn in H.
  destruct b;
    try (repeat (destruct H as [H|H]; [subst s; vm_compute; tauto|]);
         contradiction).
  destruct (Nat.ltb_spec i 10) as [Hi|Hi].
  - rewrite (click_num i s Hi). cbn [snd].
    repeat (destruct H as [H|H]; [subst s; vm_compute; tauto|]).
    contradiction.
  - unfold click. cbn [is_operation andb slot].
    apply Nat.ltb_ge in Hi. rewrite Hi. cbn [snd]. cbn. exact H.
Qed.

Lemma reachable_of_run bs s :
  run bs init = s -> reachable s.
Proof. intros <-. apply reachable_run, reach_init. Qed.

(** X1.  The window has exactly nine reachable states: since no digit
    can be entered, every operand is 0, the entry shows "0" or, after
    "0 / 0", "Result is undefined". *)
Theorem reachable_states_exact :
  forall s : state,
    (reachable s <-> In s reachable_states)
    /\ (reachable s -> lineEdit s = "0" \/ lineEdit s = ERROR_UNDEFINED).
Proof.
  intros s.
  assert (Hin : reachable s -> In s reachable_states).
  { induction 1 as [|b s _ IH]; [left; reflexivity|].
    apply click_closed, IH. }
  split; [split; [exact Hin|]|].
  - intros H. cbn in H.
    destruct H as [H|[H|[H|[H|[H|[H|[H|[H|[H|[]]]]]]]]]]; subst s.
    + apply reach_init.
    + apply (reachable_of_run [btn_add]). vm_compute. reflexivity.
    + apply (reachable_of_run [btn_sub]). vm_compute. reflexivity.
    + apply (reachable_of_run [btn_mul]). vm_compute. reflexivity.
    + apply (reachable_of_run [btn_div]). vm_compute. reflexivity.
    + apply (reachable_of_run [btn_add; btn_calc]). vm_compute. reflexivity.
    + apply (reachable_of_run [btn_sub; btn_calc]). vm_compute. reflexivity.
    + apply (reachable_of_run [btn_mul; btn_calc]). vm_compute. reflexivity.
    + apply (reachable_of_run [btn_div; btn_calc]). vm_compute. reflexivity.
  - intros R. specialize (Hin R). cbn in Hin.
    destruct Hin as [H|[H|[H|[H|[H|[H|[H|[H|[H|[]]]]]]]]]]; subst s;
      cbn; auto.
Qed.

Lemma reachable_states_exact_witness :
  lineEdit (run [btn_num 7; btn_mul; btn_num 3; btn_calc] init) = "0"
  \/ lineEdit (run [btn_num 7; btn_mul; btn_num 3; btn_calc] init)
     = ERROR_UNDEFINED.
Proof.
  apply (proj2 (reachable_states_exact _)).
  apply reachable_run, reach_init.
Defined.

(** X2.  In every reachable state a click on clear gives the initial
    state back, without an exception. *)
Theorem clear_restores_init :
  forall s : state, reachable s -> click btn_clear s = (None, init).
Proof.
  intros s R. rewrite click_clear.
  rewrite (without_error_inv s (reachable_inv s R)). reflexivity.
Qed.

Lemma clear_restores_init_witness :
  click btn_clear (run [btn_div; btn_calc] init) = (None, init).
Proof.
  apply clear_restores_init. apply reachable_run, reach_init.
Defined.

(** *** What [calculate] raises *)

Lemma get_mathsign_raises s e :
  fst (get_mathsign s) = Raise e -> e = IndexError.
Proof.
  unfold get_mathsign, bind, label_text, lift, ret.
  destruct (negb (String.eqb (label s) "")); [|discriminate].
  destruct (PyStr.last_opt (PyStr.split (label s))); cbn; congruence.
Qed.

Lemma parse_number_raises t e : parse_number t = Raise e -> e = ValueError.
Proof.
  unfold parse_number.
  destruct (PyStr.contains "." t);
    [destruct (float_of_string t) | destruct (int_of_string t)];
    cbn; congruence.
Qed.

Lemma get_temp_raises s e :
  fst (get_temp s) = Raise e -> e = IndexError \/ e = ValueError.
Proof.
  unfold get_temp, bind, label_text, lift, ret.
  destruct (negb (String.eqb (label s) "")); [|discriminate].
  destruct (hd_error (PyStr.split (label s))) as [temp|]; cbn;
    [|intros [= <-]; auto].
  destruct (parse_number temp) eqn:P; cbn; [discriminate|].
  intros [= <-]. right. eapply parse_number_raises, P.
Qed.

Lemma get_temp_some s :
  label s <> "" -> forall a, fst (get_temp s) = Ok a -> a <> None.
Proof.
  intros E a. unfold get_temp, bind, label_text, lift, ret.
  destruct (String.eqb_spec (label s) "") as [E'|_]; [contradiction|].
  cbn [negb].
  destruct (hd_error (PyStr.split (label s))) as [temp|]; cbn;
    [|discriminate].
  destruct (parse_number temp); cbn; [|discriminate].
  intros [= <-]. discriminate.
Qed.

Lemma get_entry_raises s e : fst (get_entry s) = Raise e -> e = ValueError.
Proof.
  unfold get_entry, bind, lineEdit_text, lift.
  destruct (parse_number (lineEdit s)) eqn:P; cbn; [discriminate|].
  intros [= <-]. eapply parse_number_raises, P.
Qed.

Lemma float_of_int_raises n e : float_of_int n = Raise e -> e = OverflowError.
Proof.
  unfold float_of_int. destruct (n =? 0)%Z; [discriminate|].
  destruct (PyFloat.round_pos (Z.abs n) 1) as [[m ex]|]; congruence.
Qed.

Lemma to_double_raises a e : to_double a = Raise e -> e = OverflowError.
Proof.
  destruct a as [n|x]; cbn [to_double]; [|discriminate].
  apply float_of_int_raises.
Qed.

Lemma lift2_raises fi ff a b e :
  lift2 fi ff a b = Raise e -> e = OverflowError.
Proof.
  unfold lift2, rbind.
  destruct a as [x|x], b as [y|y]; cbn [to_double]; try discriminate;
    repeat match goal with
      | |- context [float_of_int ?v] =>
          let E := fresh in
          destruct (float_of_int v) eqn:E;
          [|intros [= <-]; eapply float_of_int_raises, E]
      end; discriminate.
Qed.

Lemma truediv_raises a b e :
  truediv a b = Raise e -> e = ZeroDivisionError \/ e = OverflowError.
Proof.
  unfold truediv, rbind.
  destruct a as [x|x], b as [y|y]; cbn [to_double].
  - destruct (y =? 0)%Z; [intros [= <-]; auto|].
    destruct (x =? 0)%Z; [discriminate|].
    destruct (PyFloat.round_pos (Z.abs x) (Z.abs y)) as [[m ex]|];
      [discriminate | intros [= <-]; auto].
  - destruct (float_of_int x) eqn:E;
      [|intros [= <-]; right; eapply float_of_int_raises, E].
    destruct (PyFloat.is_zero y); [intros [= <-]; auto | discriminate].
  - destruct (float_of_int y) as [f|] eqn:E;
      [|intros [= <-]; right; eapply float_of_int_raises, E].
    destruct (PyFloat.is_zero f); [intros [= <-]; auto | discriminate].
  - destruct (PyFloat.is_zero y); [intros [= <-]; auto | discriminate].
Qed.

Lemma operations_cases key op :
  operations key = Ok op ->
  op = add \/ op = sub \/ op = mul \/ op = truediv.
Proof.
  unfold operations. destruct key as [k|]; [|discriminate].
  destruct (String.eqb k "+"); [intros [= <-]; auto|].
  destruct (String.eqb k "-"); [intros [= <-]; auto|].
  destruct (String.eqb k "*"); [intros [= <-]; auto|].
  destruct (String.eqb k "/"); [intros [= <-]; auto 6|discriminate].
Qed.

Lemma operations_raises key e : operations key = Raise e -> e = KeyError.
Proof.
  unfold operations. destruct key as [k|]; [|congruence].
  repeat match goal with
    | |- context [String.eqb k ?t] => destruct (String.eqb k t)
    end; congruence.
Qed.

Lemma str_raises a e : str a = Raise e -> e = ValueError.
Proof.
  destruct a as [n|x]; cbn; [|discriminate]. unfold str_int.
  destruct (_ <? _)%nat; congruence.
Qed.

Lemma remove_zeros_raises t e : remove_zeros t = Raise e -> e = ValueError.
Proof. unfold remove_zeros. destruct (float_of_string t); congruence. Qed.

Lemma apply_op_raises key op temp entry e :
  operations key = Ok op -> temp <> None ->
  apply_op op temp entry = Raise e ->
  e = ZeroDivisionError \/ e = OverflowError.
Proof.
  intros Hop Ht. destruct temp as [x|]; [|contradiction]. cbn [apply_op].
  destruct (operations_cases _ _ Hop) as [-> | [-> | [-> | ->]]];
    try (intros H; right; eapply lift2_raises, H).
  apply truediv_raises.
Qed.

Ltac raised_with H :=
  left; eexists; split; [reflexivity | rewrite H; tauto].

(** How the [try] block ends: with one of five exceptions and the
    window untouched, or with the result in the entry and a label that
    ends in " =". *)
Lemma calculate_try_outcome s :
  label s <> "" ->
  (exists e,
      calculate_try s = (Raise e, s)
      /\ (e = IndexError \/ e = KeyError \/ e = ValueError
          \/ e = ZeroDivisionError \/ e = OverflowError))
  \/ (exists res x,
        calculate_try s =
        (Ok (Some res), mkState res (x ++ " =") true (disabled s))).
Proof.
  intros E. unfold calculate_try.
  rewrite (bind_reader _ _ _ (get_mathsign_snd s)).
  destruct (fst (get_mathsign s)) as [sign|e] eqn:Hsign.
  2:{ raised_with (get_mathsign_raises _ _ Hsign). }
  rewrite bind_lift.
  destruct (operations sign) as [op|e] eqn:Hop.
  2:{ raised_with (operations_raises _ _ Hop). }
  rewrite (bind_reader _ _ _ (get_temp_snd s)).
  destruct (fst (get_temp s)) as [temp|e] eqn:Htemp.
  2:{ left; eexists; split; [reflexivity|].
      destruct (get_temp_raises _ _ Htemp) as [-> | ->]; tauto. }
  rewrite (bind_reader _ _ _ (get_entry_snd s)).
  destruct (fst (get_entry s)) as [entry|e] eqn:Hentry.
  2:{ raised_with (get_entry_raises _ _ Hentry). }
  rewrite bind_lift.
  destruct (apply_op op temp entry) as [v|e] eqn:Hv.
  2:{ left; eexists; split; [reflexivity|].
      destruct (apply_op_raises _ _ _ _ _ Hop (get_temp_some s E _ Htemp) Hv)
        as [-> | ->]; tauto. }
  rewrite bind_lift.
  destruct (str v) as [text|e] eqn:Htext.
  2:{ raised_with (str_raises _ _ Htext). }
  rewrite bind_lift.
  destruct (remove_zeros text) as [res|e] eqn:Hres.
  2:{ raised_with (remove_zeros_raises _ _ Hres). }
  rewrite (bind_reader _ _ _ (get_temp_snd s)), Htemp.
  rewrite bind_lift.
  destruct (fmt_opt_num temp) as [left|e] eqn:Hleft.
  2:{ left; eexists; split; [reflexivity|].
      destruct temp as [x|]; [|discriminate].
      rewrite (str_raises _ _ Hleft). tauto. }
  rewrite (bind_reader _ _ _ (get_mathsign_snd s)), Hsign.
  right. exists res, (left ++ " " ++ fmt_opt_str sign ++ " " ++ lineEdit s).
  rewrite !append_assoc. reflexivity.
Qed.

(** X3.  An exception that leaves [calculate] is a [ValueError], an
    [IndexError] or an [OverflowError], never the [ZeroDivisionError]
    or [KeyError] of its [except] clauses, and the window is as it was
    before the call. *)
Theorem calculate_raises_only :
  forall (s : state) (e : exn),
    fst (calculate s) = Raise e ->
    (e = ValueError \/ e = IndexError \/ e = OverflowError)
    /\ snd (calculate s) = s.
Proof.
  intros s e. unfold calculate. rewrite bind_label_text.
  destruct (String.eqb_spec (label s) "") as [E|E]; [discriminate|].
  unfold try_except.
  destruct (calculate_try_outcome s E) as [(e0 & -> & He0)|(res & x & ->)];
    [|discriminate].
  destruct He0 as [-> | [-> | [-> | [-> | ->]]]]; cbn [calculate_except].
  - intros [= <-]. tauto.
  - discriminate.
  - intros [= <-]. tauto.
  - rewrite (bind_reader _ _ _ (get_temp_snd s)).
    destruct (fst (get_temp s)) as [temp|e1] eqn:Htemp.
    + destruct (opt_eq_zero temp); discriminate.
    + cbn. intros [= <-].
      destruct (get_temp_raises _ _ Htemp) as [-> | ->]; tauto.
  - intros [= <-]. tauto.
Qed.

Lemma calculate_raises_only_witness :
  snd (calculate (mkState "-" "5 +" false false))
  = mkState "-" "5 +" false false.
Proof.
  apply (proj2 (calculate_raises_only
                  (mkState "-" "5 +" false false) ValueError eq_refl)).
Defined.

(** X4.  When the last word of the label is none of "+", "-", "*",
    "/" (as on a finalized expression, which ends in "="),
    [calculate] returns [None] and leaves the window as it is. *)
Theorem calculate_unknown_operator :
  forall (s : state) (sign : string),
    fst (get_mathsign s) = Ok (Some sign) ->
    ~ In sign operator_signs ->
    calculate s = (Ok None, s).
Proof.
  intros s sign Hsign Hnot.
  pose proof (get_mathsign_some _ _ Hsign) as E.
  unfold calculate. rewrite bind_label_text.
  destruct (String.eqb_spec (label s) "") as [E'|_]; [contradiction|].
  assert (Htry : calculate_try s = (Raise KeyError, s)).
  { unfold calculate_try.
    rewrite (bind_reader _ _ _ (get_mathsign_snd s)), Hsign.
    rewrite bind_lift. unfold operations.
    destruct (String.eqb_spec sign "+") as [->|_];
      [exfalso; apply Hnot; cbn; tauto|].
    destruct (String.eqb_spec sign "-") as [->|_];
      [exfalso; apply Hnot; cbn; tauto|].
    destruct (String.eqb_spec sign "*") as [->|_];
      [exfalso; apply Hnot; cbn; tauto|].
    destruct (String.eqb_spec sign "/") as [->|_];
      [exfalso; apply Hnot; cbn; tauto|].
    reflexivity. }
  unfold try_except. rewrite Htry. reflexivity.
Qed.

Lemma calculate_unknown_operator_witness :
  calculate (mkState "15" "12 + 3 =" true false)
  = (Ok None, mkState "15" "12 + 3 =" true false).
Proof.
  apply (calculate_unknown_operator _ "=").
  - vm_compute. reflexivity.
  - cbn. intros [H|[H|[H|[H|[]]]]]; discriminate H.
Defined.

(** X5.  A [calculate] that returns a result has written it to the
    entry, set the flag, left the buttons and written a label whose
    last word is "="; a second [calculate] then changes nothing. *)
Theorem calculate_then_calculate :
  forall (s s' : state) (res : string),
    calculate s = (Ok (Some res), s') ->
    lineEdit s' = res
    /\ is_result_shown s' = true
    /\ disabled s' = disabled s
    /\ fst (get_mathsign s') = Ok (Some "=")
    /\ calculate s' = (Ok None, s').
Proof.
  intros s s' res. unfold calculate at 1. rewrite bind_label_text.
  destruct (String.eqb_spec (label s) "") as [E|E]; [discriminate|].
  unfold try_except.
  destruct (calculate_try_outcome s E) as [(e0 & -> & He0)|(r & x & ->)].
  - destruct He0 as [-> | [-> | [-> | [-> | ->]]]]; cbn [calculate_except];
      try discriminate.
    rewrite (bind_reader _ _ _ (get_temp_snd s)).
    destruct (fst (get_temp s)) as [temp|e1]; [|discriminate].
    destruct (opt_eq_zero temp); discriminate.
  - intros [= <- <-]. cbn [lineEdit is_result_shown disabled].
    assert (Hsign : fst (get_mathsign (mkState r (x ++ " =") true (disabled s)))
                    = Ok (Some "=")).
    { unfold get_mathsign, bind, label_text, lift, ret. cbn [label].
      destruct (String.eqb_spec (x ++ " =") "") as [E0|_].
      { destruct x; discriminate E0. }
      cbn [negb]. unfold PyStr.split.
      change (x ++ " =") with (x ++ " " ++ "=").
      rewrite (split_last_word "=" eq_refl ltac:(discriminate) x []).
      reflexivity. }
    repeat split; [exact Hsign|].
    apply (calculate_unknown_operator _ "=" Hsign).
    cbn. intros [H|[H|[H|[H|[]]]]]; discriminate H.
Qed.

Lemma calculate_then_calculate_witness :
  calculate (mkState "3" "6 / 2 =" true false)
  = (Ok None, mkState "3" "6 / 2 =" true false).
Proof.
  apply (calculate_then_calculate (mkState "2" "6 /" false false) _ "3").
  vm_compute. reflexivity.
Defined.

(** *** [math_operation] and the label it writes *)

Lemma operator_sign_word sign :
  In sign operator_signs -> PyStr.no_space sign = true /\ sign <> "".
Proof.
  cbn. intros [H|[H|[H|[H|[]]]]]; subst sign; split;
    first [reflexivity | discriminate].
Qed.

Lemma get_mathsign_last s x t :
  label s = x ++ " " ++ t -> PyStr.no_space t = true -> t <> "" ->
  fst (get_mathsign s) = Ok (Some t).
Proof.
  intros E Ht Hne. unfold get_mathsign, bind, label_text, lift, ret.
  rewrite E.
  destruct (String.eqb_spec (x ++ " " ++ t) "") as [E0|_].
  { destruct x; discriminate E0. }
  cbn [negb]. unfold PyStr.split.
  rewrite (split_last_word t Ht Hne x []). reflexivity.
Qed.

(** X6.  With no pending expression, an operator click on an entry
    that [float] reads moves the entry to the label, as "<entry
    without .0> <sign>", resets the entry to "0", clears the flag, and
    [get_mathsign] reads the sign back; on any other entry it raises
    [ValueError] and writes nothing. *)
Theorem math_operation_starts_expression :
  forall (s : state) (sign : string),
    label s = "" -> In sign operator_signs ->
    match remove_zeros (lineEdit s) with
    | Ok z =>
        math_operation sign s =
        (Ok tt, mkState "0" (z ++ " " ++ sign) false (disabled s))
        /\ fst (get_mathsign (snd (math_operation sign s))) = Ok (Some sign)
    | Raise e =>
        e = ValueError /\ math_operation sign s = (Raise ValueError, s)
    end.
Proof.
  intros s sign E Hsign. rewrite (math_operation_empty sign s E).
  destruct (remove_zeros (lineEdit s)) as [z|e] eqn:Hz.
  - split; [reflexivity|]. cbn [snd].
    destruct (operator_sign_word sign Hsign) as [Hw Hne].
    apply (get_mathsign_last _ z sign); [reflexivity | exact Hw | exact Hne].
  - rewrite (remove_zeros_raises _ _ Hz). split; reflexivity.
Qed.

Lemma math_operation_starts_expression_witness :
  math_operation "*" (mkState "2.50" "" false false)
  = (Ok tt, mkState "0" "2.5 *" false false)
  /\ fst (get_mathsign (snd (math_operation "*" (mkState "2.50" "" false false))))
     = Ok (Some "*").
Proof.
  exact (math_operation_starts_expression
           (mkState "2.50" "" false false) "*" eq_refl
           (or_intror (or_intror (or_introl eq_refl)))).
Defined.

Lemma substring_prefix (y z : string) :
  substring 0 (String.length y) (y ++ z) = y.
Proof.
  induction y as [|a y IH]; cbn.
  - destruct z; reflexivity.
  - rewrite IH. reflexivity.
Qed.

Lemma length_append (y z : string) :
  String.length (y ++ z) = (String.length y + String.length z)%nat.
Proof. induction y as [|a y IH]; cbn; [reflexivity | rewrite IH; reflexivity]. Qed.

Lemma drop_last_one (y : string) (c : ascii) :
  PyStr.drop_last 1 (y ++ String c "") = y.
Proof.
  unfold PyStr.drop_last. rewrite length_append. cbn [String.length].
  replace (String.length y + 1 - 1)%nat with (String.length y) by lia.
  apply substring_prefix.
Qed.

(** X7.  Operator substitution: on a label "<left> <c>" whose last word
    is one character other than "=", an operator click replaces that
    character by the new sign and leaves the rest of the label and the
    entry as they are; [get_mathsign] then reads the new sign. *)
Theorem operator_substitution :
  forall (s : state) (x : string) (c : ascii) (sign : string),
    label s = x ++ " " ++ String c "" ->
    PyStr.is_space c = false ->
    String c "" <> "=" ->
    In sign operator_signs ->
    math_operation sign s =
    (Ok tt, mkState (lineEdit s) (x ++ " " ++ sign) false (disabled s))
    /\ fst (get_mathsign (snd (math_operation sign s))) = Ok (Some sign).
Proof.
  intros s x c sign E Hc Hne Hsign.
  assert (Hcur : fst (get_mathsign s) = Ok (Some (String c ""))).
  { apply (get_mathsign_last s x); [exact E | cbn; rewrite Hc; reflexivity
                                   | discriminate]. }
  rewrite (math_operation_substitutes sign s _ Hcur Hne).
  assert (Hl : PyStr.drop_last 1 (label s) = x ++ " ").
  { rewrite E.
    change (x ++ " " ++ String c "") with (x ++ (" " ++ String c "")).
    rewrite <- append_assoc. apply drop_last_one. }
  rewrite Hl, append_assoc. split; [reflexivity|]. cbn [snd].
  destruct (operator_sign_word sign Hsign) as [Hw Hne'].
  apply (get_mathsign_last _ x sign); [reflexivity | exact Hw | exact Hne'].
Qed.

Lemma operator_substitution_witness :
  math_operation "-" (mkState "0" "5 +" false false)
  = (Ok tt, mkState "0" "5 -" false false).
Proof.
  refine (proj1 (operator_substitution
                   (mkState "0" "5 +" false false) "5" "+" "-"
                   eq_refl eq_refl _ _)).
  - discriminate.
  - cbn. tauto.
Defined.

(** X8.  The sign toggle of [negate] (lines 121-124) undoes itself:
    applied twice it gives back every text other than "-0" and the
    texts that start with two signs. *)
Theorem toggle_sign_twice :
  forall entry : string,
    entry <> "-0" -> PyStr.startswith "--" entry = false ->
    toggle_sign (toggle_sign entry) = entry.
Proof. exact toggle_sign_involutive. Qed.

Lemma toggle_sign_twice_witness :
  toggle_sign (toggle_sign "-12.5") = "-12.5".
Proof.
  apply toggle_sign_twice; [discriminate | reflexivity].
Defined.

End CalculatorMore.

(* ===================================================================== *)
(** ** Further properties of the currency client                         *)
(* ===================================================================== *)

From Stdlib Require Import Permutation.

Module CurrencyConverterMore.
Import Py PyNum CurrencyConverter CurrencyConverterProps.
Local Open Scope io_scope.

(** *** The order of currency codes *)

Lemma ltb_asym a b : String.ltb a b = true -> String.ltb b a = false.
Proof.
  unfold String.ltb. rewrite (String.compare_antisym b a).
  destruct (String.compare a b); cbn; congruence.
Qed.

Lemma ltb_total a b :
  a <> b -> String.ltb b a = false -> String.ltb a b = true.
Proof.
  unfold String.ltb. intros Hne. rewrite (String.compare_antisym b a).
  destruct (String.compare a b) eqn:C; cbn; try congruence.
  apply String.compare_eq_iff in C. contradiction.
Qed.

Lemma insert_item_perm it l : Permutation (insert_item it l) (it :: l).
Proof.
  induction l as [|y l IH]; cbn [insert_item]; [reflexivity|].
  destruct (String.ltb (fst it) (fst y)); [reflexivity|].
  rewrite IH. apply perm_swap.
Qed.

Lemma insert_item_ordered it l :
  ordered_codes l -> ordered_codes (insert_item it l).
Proof.
  induction l as [|y l IH]; intros H; [exact I|].
  cbn [insert_item].
  destruct (String.ltb (fst it) (fst y)) eqn:C.
  - split; [apply ltb_asym, C | exact H].
  - destruct l as [|z l].
    + cbn. auto.
    + destruct H as [Hyz H]. specialize (IH H).
      cbn [insert_item] in *.
      destruct (String.ltb (fst it) (fst z)); split; auto.
Qed.

Lemma sort_items_acc l : forall acc,
  ordered_codes acc ->
  ordered_codes (fold_left (fun a it => insert_item it a) l acc)
  /\ Permutation (fold_left (fun a it => insert_item it a) l acc) (acc ++ l).
Proof.
  induction l as [|it l IH]; intros acc Ho; cbn [fold_left].
  - rewrite app_nil_r. split; [exact Ho | reflexivity].
  - destruct (IH (insert_item it acc) (insert_item_ordered it acc Ho))
      as [H1 H2].
    split; [exact H1|]. rewrite H2, insert_item_perm.
    cbn [app]. apply Permutation_middle.
Qed.

(** Sorted without repetition is strictly increasing. *)
Lemma ordered_increasing l :
  ordered_codes l -> NoDup (map fst l) -> increasing_codes l = true.
Proof.
  induction l as [|a l IH]; intros Ho Hd; [reflexivity|].
  destruct l as [|b l]; [reflexivity|].
  destruct Ho as [Hab Ho]. cbn [map] in Hd.
  inversion Hd as [|? ? Ha Hd']; subst.
  change (String.ltb (fst a) (fst b) && increasing_codes (b :: l) = true).
  rewrite (IH Ho Hd'), andb_true_r.
  apply ltb_total; [|exact Hab].
  intros E. apply Ha. left. symmetry. exact E.
Qed.

(** *** Dictionaries *)

Lemma existsb_eqb_in k seen :
  existsb (String.eqb k) seen = true <-> In k seen.
Proof.
  rewrite existsb_exists. split.
  - intros (y & Hy & E). apply String.eqb_eq in E. subst. exact Hy.
  - intros H. exists k. split; [exact H | apply String.eqb_refl].
Qed.

Lemma dict_items_spec all m : forall seen,
  (forall x, In x (dict_items seen all m) <->
             In (fst x) (map fst m) /\ ~ In (fst x) seen
             /\ lookup (fst x) all = Some (snd x))
  /\ NoDup (map fst (dict_items seen all m))
  /\ (forall k, In k (map fst (dict_items seen all m)) -> ~ In k seen).
Proof.
  induction m as [|[k v0] m IH]; intros seen.
  - cbn. split; [|split]; [intuition | constructor | intros k []].
  - cbn [dict_items map fst].
    destruct (existsb (String.eqb k) seen) eqn:Hs.
    + apply existsb_eqb_in in Hs.
      destruct (IH seen) as (H1 & H2 & H3).
      split; [|split; assumption].
      intros x. rewrite H1. cbn [In]. split; [tauto|].
      intros ([E|Hin] & Hn & Hl); [subst k; contradiction | tauto].
    + assert (Hk : ~ In k seen).
      { intros H. apply existsb_eqb_in in H. congruence. }
      destruct (IH (k :: seen)) as (H1 & H2 & H3).
      destruct (lookup k all) as [v|] eqn:Hl.
      * split; [|split].
        -- intros [kx vx]. cbn [In fst snd]. rewrite H1. cbn [In fst snd].
           split.
           ++ intros [E|(Hin & Hn & Hx)].
              ** inversion E; subst. tauto.
              ** tauto.
           ++ intros ([E|Hin] & Hn & Hx).
              ** subst kx. left. congruence.
              ** destruct (String.eqb_spec k kx) as [E|E].
                 --- subst kx. left. congruence.
                 --- right. tauto.
        -- cbn [map fst]. constructor; [|exact H2].
           intros Hin. apply (H3 k Hin). left. reflexivity.
        -- intros k' [E|Hin] Hs'.
           ++ cbn in E. subst k'. contradiction.
           ++ apply (H3 k' Hin). right. exact Hs'.
      * split; [|split].
        -- intros [kx vx]. rewrite H1. cbn [In fst snd]. split; [tauto|].
           intros ([E|Hin] & Hn & Hx); [subst kx; congruence|].
           destruct (String.eqb_spec k kx) as [E|E];
             [subst kx; congruence | tauto].
        -- exact H2.
        -- intros k' Hin Hs'. apply (H3 k' Hin). right. exact Hs'.
Qed.

Lemma lookup_in k v m : lookup k m = Some v -> In k (map fst m).
Proof.
  revert v. induction m as [|[k' v'] m IH]; intros v; cbn; [discriminate|].
  destruct (lookup k m) as [w|].
  - intros _. right. apply (IH w). reflexivity.
  - destruct (String.eqb_spec k' k) as [E|E]; [|discriminate].
    intros _. left. exact E.
Qed.

(** *** Requests *)

Lemma api_get_json_sends API_KEY http endpoint timeout w :
  key_missing API_KEY = false ->
  api_get_json API_KEY http endpoint timeout w =
  (http (requests (trace w)) (BASE_URL ++ endpoint),
   mkWorld (stdin w) (Get (BASE_URL ++ endpoint) timeout :: trace w)).
Proof. intros H. unfold api_get_json. rewrite H. reflexivity. Qed.

(** X9.  When [get_currencies] returns, it has sent one request, and
    its list holds one item for every key of the "results" object of
    the answer, with the value the dictionary keeps for it, in strictly
    increasing order of the codes. *)
Theorem get_currencies_sorted :
  forall (API_KEY : option string) (http : nat -> string -> result json)
         (w w' : world) (items : list (string * json)),
    get_currencies API_KEY http w = (Ok items, w') ->
    increasing_codes items = true
    /\ requests (trace w') = S (requests (trace w))
    /\ exists doc members,
         http (requests (trace w))
              (BASE_URL ++ "api/v7/currencies?apiKey=" ++ key_text API_KEY)
         = Ok doc
         /\ get_default doc "results" (JObj []) = Ok (JObj members)
         /\ forall k v, In (k, v) items <-> lookup k members = Some v.
Proof.
  intros API_KEY http w w' items. unfold get_currencies.
  destruct (key_missing API_KEY) eqn:Hkey.
  { unfold bind, api_get_json. rewrite Hkey. discriminate. }
  unfold bind at 1. rewrite (api_get_json_sends _ _ _ _ _ Hkey).
  destruct (http (requests (trace w)) _) as [doc|e] eqn:Hdoc; [|discriminate].
  unfold bind, lift.
  destruct (get_default doc "results" (JObj [])) as [data|e] eqn:Hdata;
    [|discriminate].
  destruct data as [| | | | |members]; try discriminate.
  unfold ret. intros [= <- <-].
  destruct (dict_items_spec members members []) as (D1 & D2 & _).
  destruct (sort_items_acc (dict_items [] members members) [] I) as [S1 S2].
  cbn [app] in S2. fold (sort_items (dict_items [] members members)) in *.
  split; [|split].
  - apply ordered_increasing; [exact S1|].
    apply (Permutation_NoDup (l := map fst (dict_items [] members members)));
      [|exact D2].
    apply Permutation_map. symmetry. exact S2.
  - reflexivity.
  - exists doc, members. split; [reflexivity|]. split; [exact Hdata|].
    intros k v. split.
    + intros Hin. apply (Permutation_in _ S2) in Hin.
      apply D1 in Hin. cbn in Hin. tauto.
    + intros Hl. apply (Permutation_in _ (Permutation_sym S2)).
      apply D1. cbn [fst snd]. split; [eapply lookup_in, Hl|].
      split; [intros []|exact Hl].
Qed.

Lemma get_currencies_sorted_witness :
  increasing_codes
    (sort_items (dict_items []
       [("USD", JNull); ("EUR", JNull); ("USD", JStr "x")]
       [("USD", JNull); ("EUR", JNull); ("USD", JStr "x")])) = true.
Proof.
  refine (proj1 (get_currencies_sorted
                   (Some "k")
                   (fun _ _ => Ok (JObj [("results",
                      JObj [("USD", JNull); ("EUR", JNull);
                            ("USD", JStr "x")])]))
                   (mkWorld [] []) _ _ _)).
  vm_compute. reflexivity.
Defined.

(** *** [exchange_rate] and [convert] *)

(** The address [exchange_rate] asks. *)
Lemma exchange_rate_unfold API_KEY http py_str cur1 cur2 w :
  key_missing API_KEY = false ->
  exchange_rate API_KEY http py_str cur1 cur2 w =
  let pair := cur1 ++ "_" ++ cur2 in
  let url := BASE_URL ++ "api/v7/convert?q=" ++ pair
               ++ "&compact=ultra&apiKey=" ++ key_text API_KEY in
  let w1 := mkWorld (stdin w) (Get url 10 :: trace w) in
  match http (requests (trace w)) url with
  | Raise e => (Raise e, w1)
  | Ok data =>
      if negb (truthy data) then
        (Ok None,
         mkWorld (stdin w)
                 (Print "Invalid currencies or empty response." :: trace w1))
      else
        match get_default data pair JNull with
        | Raise e => (Raise e, w1)
        | Ok JNull =>
            (Ok None,
             mkWorld (stdin w)
                     (Print "Invalid currencies or unsupported pair."
                        :: trace w1))
        | Ok rate =>
            let w2 := mkWorld (stdin w)
                        (Print (cur1 ++ " -> " ++ cur2 ++ " = " ++ py_str rate)
                           :: trace w1) in
            match float_of_json rate with
            | Ok x => (Ok (Some x), w2)
            | Raise e => (Raise e, w2)
            end
        end
  end.
Proof.
  intros Hkey. unfold exchange_rate. unfold bind at 1.
  rewrite (api_get_json_sends _ _ _ _ _ Hkey). cbv zeta.
  destruct (http (requests (trace w)) _) as [data|e]; [|reflexivity].
  destruct (truthy data); cbn [negb]; [|reflexivity].
  unfold bind at 1. unfold lift at 1.
  destruct (get_default data (cur1 ++ "_" ++ cur2) JNull) as [rate|e];
    [|reflexivity].
  destruct rate; try reflexivity;
    cbv [bind print emit lift ret stdin trace];
    match goal with
    | |- context [float_of_json ?r] => destruct (float_of_json r); reflexivity
    end.
Qed.

Lemma exchange_rate_one_request API_KEY http py_str cur1 cur2 w :
  key_missing API_KEY = false ->
  requests (trace (snd (exchange_rate API_KEY http py_str cur1 cur2 w)))
  = S (requests (trace w))
  /\ stdin (snd (exchange_rate API_KEY http py_str cur1 cur2 w)) = stdin w.
Proof.
  intros Hkey. rewrite (exchange_rate_unfold _ _ _ _ _ _ Hkey). cbv zeta.
  destruct (http (requests (trace w)) _) as [data|e]; [|split; reflexivity].
  destruct (negb (truthy data)); [split; reflexivity|].
  destruct (get_default data (cur1 ++ "_" ++ cur2) JNull) as [rate|e];
    [|split; reflexivity].
  destruct rate; try (split; reflexivity);
    match goal with
    | |- context [float_of_json ?r] =>
        destruct (float_of_json r); split; reflexivity
    end.
Qed.

(** X10.  On an answer that is a dictionary without the pair (or with
    [null] for it), [exchange_rate] returns [None] after one request
    and one message: "empty response" for the empty dictionary,
    "unsupported pair" otherwise. *)
Theorem exchange_rate_without_pair :
  forall (API_KEY : option string) (http : nat -> string -> result json)
         (py_str : json -> string) (cur1 cur2 : string) (w : world)
         (members : list (string * json)),
    key_missing API_KEY = false ->
    http (requests (trace w))
         (BASE_URL ++ "api/v7/convert?q=" ++ (cur1 ++ "_" ++ cur2)
            ++ "&compact=ultra&apiKey=" ++ key_text API_KEY)
    = Ok (JObj members) ->
    lookup (cur1 ++ "_" ++ cur2) members = None
    \/ lookup (cur1 ++ "_" ++ cur2) members = Some JNull ->
    exchange_rate API_KEY http py_str cur1 cur2 w =
    (Ok None,
     mkWorld (stdin w)
       (Print (match members with
               | [] => "Invalid currencies or empty response."
               | _ => "Invalid currencies or unsupported pair."
               end)
          :: Get (BASE_URL ++ "api/v7/convert?q=" ++ (cur1 ++ "_" ++ cur2)
                    ++ "&compact=ultra&apiKey=" ++ key_text API_KEY) 10
          :: trace w)).
Proof.
  intros API_KEY http py_str cur1 cur2 w members Hkey Hdoc Hpair.
  rewrite (exchange_rate_unfold _ _ _ _ _ _ Hkey). cbv zeta. rewrite Hdoc.
  destruct members as [|m members]; [reflexivity|].
  cbn [truthy negb get_default trace].
  destruct Hpair as [-> | ->]; reflexivity.
Qed.

Lemma exchange_rate_without_pair_witness :
  exchange_rate (Some "k") (fun _ _ => Ok (JObj [("USD_EUR", JNull)]))
                (fun _ => "") "USD" "EUR" (mkWorld [] [])
  = (Ok None,
     mkWorld []
       [ Print "Invalid currencies or unsupported pair.";
         Get "https://free.currconv.com/api/v7/convert?q=USD_EUR&compact=ultra&apiKey=k"
             10 ]).
Proof.
  exact (exchange_rate_without_pair
           (Some "k") (fun _ _ => Ok (JObj [("USD_EUR", JNull)]))
           (fun _ => "") "USD" "EUR" (mkWorld [] [])
           [("USD_EUR", JNull)] eq_refl eq_refl (or_intror eq_refl)).
Defined.

(** X11.  On an answer that is true in a condition but no dictionary
    (a non-empty list or text, a number other than 0, [true]),
    [exchange_rate] raises [AttributeError] after the request, and the
    "rate" command lets it leave the loop: the program ends. *)
Theorem exchange_rate_not_a_dictionary :
  forall (API_KEY : option string) (http : nat -> string -> result json)
         (py_str : json -> string) (c : cache) (w : world)
         (line a b : string) (rest : list string) (data : json) (fuel : nat),
    key_missing API_KEY = false ->
    stdin w = line :: a :: b :: rest ->
    command_of line = "rate" ->
    (forall url, http (requests (trace w)) url = Ok data) ->
    truthy data = true -> is_object data = false ->
    (forall cur1 cur2 w0,
        requests (trace w0) = requests (trace w) ->
        fst (exchange_rate API_KEY http py_str cur1 cur2 w0)
        = Raise AttributeError)
    /\ fst (loop API_KEY http py_str (S fuel) c w) = Raise AttributeError
    /\ stdin (snd (loop API_KEY http py_str (S fuel) c w)) = rest.
Proof.
  intros API_KEY http py_str c w line a b rest data fuel
         Hkey Hin Hcmd Hhttp Ht Hobj.
  assert (Hx : forall cur1 cur2 w0,
             requests (trace w0) = requests (trace w) ->
             exchange_rate API_KEY http py_str cur1 cur2 w0 =
             (Raise AttributeError,
              mkWorld (stdin w0)
                (Get (BASE_URL ++ "api/v7/convert?q=" ++ (cur1 ++ "_" ++ cur2)
                        ++ "&compact=ultra&apiKey=" ++ key_text API_KEY) 10
                   :: trace w0))).
  { intros cur1 cur2 w0 Hn.
    rewrite (exchange_rate_unfold _ _ _ _ _ _ Hkey). cbv zeta.
    rewrite Hn, Hhttp, Ht. cbn [negb].
    destruct data; try discriminate Hobj; reflexivity. }
  split; [intros cur1 cur2 w0 Hn; rewrite (Hx _ _ _ Hn); reflexivity|].
  destruct w as [inp tr]. cbn [stdin trace] in *. subst inp.
  cbn [loop]. unfold bind at 1. unfold loop_body.
  cbv [bind input emit stdin trace].
  unfold command_of in Hcmd. rewrite Hcmd.
  cbn [String.eqb Ascii.eqb Bool.eqb]. unfold dispatch.
  cbn [String.eqb Ascii.eqb Bool.eqb].
  cbv [bind input emit stdin trace].
  rewrite Hx by reflexivity. split; reflexivity.
Qed.

Lemma exchange_rate_not_a_dictionary_witness :
  fst (loop (Some "k") (fun _ _ => Ok (JArr [JNull])) (fun _ => "")
            1 None (mkWorld ["rate"; "usd"; "eur"; "q"] []))
  = Raise AttributeError.
Proof.
  refine (proj1 (proj2 (exchange_rate_not_a_dictionary
                          (Some "k") (fun _ _ => Ok (JArr [JNull]))
                          (fun _ => "") None
                          (mkWorld ["rate"; "usd"; "eur"; "q"] [])
                          "rate" "usd" "eur" ["q"] (JArr [JNull]) 0
                          eq_refl eq_refl eq_refl _ eq_refl eq_refl))).
  intros url. reflexivity.
Defined.

(** X12.  An amount that [float] does not read is found only after the
    rate was fetched: [convert] still sends its one request, and
    whenever it returns, it returns [None]. *)
Theorem convert_invalid_amount :
  forall (API_KEY : option string) (http : nat -> string -> result json)
         (py_str : json -> string) (cur1 cur2 amount : string) (w : world),
    key_missing API_KEY = false ->
    float_of_string amount = None ->
    requests (trace (snd (convert API_KEY http py_str cur1 cur2 amount w)))
    = S (requests (trace w))
    /\ forall r,
         fst (convert API_KEY http py_str cur1 cur2 amount w) = Ok r ->
         r = None.
Proof.
  intros API_KEY http py_str cur1 cur2 amount w Hkey Hamount.
  destruct (exchange_rate_one_request API_KEY http py_str cur1 cur2 w Hkey)
    as [Hreq _].
  unfold convert, bind.
  destruct (exchange_rate API_KEY http py_str cur1 cur2 w) as [[r|e] w1];
    cbn [snd] in Hreq.
  - destruct r as [rate|].
    + rewrite Hamount. cbv [print emit ret trace fst snd].
      split; [exact Hreq | intros r [= <-]; reflexivity].
    + split; [exact Hreq | intros r [= <-]; reflexivity].
  - split; [exact Hreq | discriminate].
Qed.

Lemma convert_invalid_amount_witness :
  requests (trace (snd (convert (Some "k")
                                (fun _ _ => Ok (JObj [("USD_EUR", JNum (PyInt 2))]))
                                (fun _ => "2") "USD" "EUR" "ten"
                                (mkWorld [] []))))
  = 1%nat.
Proof.
  apply (proj1 (convert_invalid_amount
                  (Some "k")
                  (fun _ _ => Ok (JObj [("USD_EUR", JNum (PyInt 2))]))
                  (fun _ => "2") "USD" "EUR" "ten" (mkWorld [] [])
                  eq_refl eq_refl)).
Defined.

(** *** The command loop *)

(** One turn of the loop on a line that is not "q". *)
Lemma loop_body_unfold API_KEY http py_str c inp tr line :
  command_of line <> "q" ->
  loop_body API_KEY http py_str c (mkWorld (line :: inp) tr) =
  match dispatch API_KEY http py_str (command_of line) c
                 (mkWorld inp (Prompt "Enter a command (q to quit): " :: tr))
  with
  | (Ok c', w') => (Ok (Continue c'), w')
  | (Raise (RequestException msg), w')
  | (Raise (JSONDecodeError msg), w') =>
      (Ok (Continue c),
       mkWorld (stdin w') (Print ("Network/API error: " ++ msg) :: trace w'))
  | (Raise (RuntimeError msg), w') =>
      (Ok Break, mkWorld (stdin w') (Print msg :: trace w'))
  | (Raise ValueError, w') =>
      (Ok (Continue c),
       mkWorld (stdin w')
               (Print "Failed to parse API response." :: trace w'))
  | (Raise e, w') => (Raise e, w')
  end.
Proof.
  intros Hq. unfold loop_body. cbv [bind input emit stdin trace].
  fold (command_of line).
  destruct (String.eqb_spec (command_of line) "q") as [E|_];
    [contradiction|].
  destruct (dispatch API_KEY http py_str (command_of line) c _)
    as [[c'|e] w']; [reflexivity|].
  destruct e; reflexivity.
Qed.

(** X13.  "list" asks the service once: with nothing cached it sends
    one request and, when it succeeds, caches what [get_currencies]
    returned; with a cached list it sends no request and keeps the
    cache. *)
Theorem list_is_cached :
  forall (API_KEY : option string) (http : nat -> string -> result json)
         (py_str : json -> string) (w : world),
    (forall cached,
        requests (trace (snd (dispatch API_KEY http py_str "list"
                                       (Some cached) w)))
        = requests (trace w)
        /\ forall c' w',
             dispatch API_KEY http py_str "list" (Some cached) w = (Ok c', w')
             -> c' = Some cached)
    /\ (forall c' w',
           dispatch API_KEY http py_str "list" None w = (Ok c', w') ->
           requests (trace w') = S (requests (trace w))
           /\ exists items w1,
                get_currencies API_KEY http w = (Ok items, w1)
                /\ c' = Some items).
Proof.
  intros API_KEY http py_str w. split.
  - intros cached. unfold dispatch. cbn [String.eqb Ascii.eqb Bool.eqb].
    pose proof (quiet_print_currencies py_str cached w) as Q.
    cbv [bind ret].
    destruct (print_currencies py_str cached w) as [[u|e] w1]; cbn [snd] in *.
    + split; [exact Q | intros c' w' [= <- _]; reflexivity].
    + split; [exact Q | discriminate].
  - intros c' w'. unfold dispatch. cbn [String.eqb Ascii.eqb Bool.eqb].
    unfold bind at 1.
    destruct (get_currencies API_KEY http w) as [[items|e] w1] eqn:G;
      [|discriminate].
    destruct (get_currencies_sorted _ _ _ _ _ G) as (_ & Hreq & _).
    pose proof (quiet_print_currencies py_str items w1) as Q.
    unfold bind.
    destruct (print_currencies py_str items w1) as [[u|e] w2]; cbn [snd] in *;
      [|discriminate].
    unfold ret. intros [= <- <-]. split; [congruence|].
    exists items, w1. split; reflexivity.
Qed.

Lemma list_is_cached_witness :
  requests (trace (snd (dispatch (Some "k") (fun _ _ => Ok JNull)
                                 (fun _ => "") "list"
                                 (Some [("EUR", JObj [])])
                                 (mkWorld [] []))))
  = 0%nat.
Proof.
  apply (proj1 (proj1 (list_is_cached (Some "k") (fun _ _ => Ok JNull)
                                      (fun _ => "") (mkWorld [] []))
                      [("EUR", JObj [])])).
Defined.

Section ServiceFails.

Variable API_KEY : option string.
Variable http : nat -> string -> result json.
Variable py_str : json -> string.
Variable e : exn.
Hypothesis has_key : key_missing API_KEY = false.

Lemma get_currencies_fails w :
  (forall url, http (requests (trace w)) url = Raise e) ->
  exists url,
    get_currencies API_KEY http w =
    (Raise e, mkWorld (stdin w) (Get url 10 :: trace w)).
Proof.
  intros H. unfold get_currencies. unfold bind at 1.
  rewrite (api_get_json_sends _ _ _ _ _ has_key), H.
  eexists. reflexivity.
Qed.

Lemma exchange_rate_fails cur1 cur2 w :
  (forall url, http (requests (trace w)) url = Raise e) ->
  exists url,
    exchange_rate API_KEY http py_str cur1 cur2 w =
    (Raise e, mkWorld (stdin w) (Get url 10 :: trace w)).
Proof.
  intros H. rewrite (exchange_rate_unfold _ _ _ _ _ _ has_key). cbv zeta.
  rewrite H. eexists. reflexivity.
Qed.

Lemma convert_fails cur1 cur2 amount w :
  (forall url, http (requests (trace w)) url = Raise e) ->
  exists url,
    convert API_KEY http py_str cur1 cur2 amount w =
    (Raise e, mkWorld (stdin w) (Get url 10 :: trace w)).
Proof.
  intros H. destruct (exchange_rate_fails cur1 cur2 w H) as [url Hx].
  exists url. unfold convert, bind. rewrite Hx. reflexivity.
Qed.

(** A command that calls the service, when the service fails: the
    prompts, the request, and the exception. *)
Lemma dispatch_fails c inp tr command :
  (forall url, http (requests tr) url = Raise e) ->
  touches_api command c = true ->
  (args_needed command <= List.length inp)%nat ->
  exists url prompts,
    dispatch API_KEY http py_str command c (mkWorld inp tr) =
    (Raise e,
     mkWorld (skipn (args_needed command) inp)
             (Get url 10 :: prompts ++ tr))
    /\ requests prompts = 0%nat.
Proof.
  intros H Hcmd Hargs. unfold touches_api, args_needed in *. unfold dispatch.
  destruct (String.eqb_spec command "convert") as [E|_].
  { subst command. cbn [String.eqb Ascii.eqb Bool.eqb] in *.
    destruct inp as [|a [|b [|d inp']]]; cbn in Hargs; try lia.
    cbv [bind input emit stdin trace].
    match goal with
    | |- context [convert _ _ _ ?c1 ?c2 ?am ?w0] =>
        destruct (convert_fails c1 c2 am w0 H) as [url ->]
    end.
    exists url. eexists [_; _; _]. split; reflexivity. }
  destruct (String.eqb_spec command "rate") as [E|_].
  { subst command. cbn [String.eqb Ascii.eqb Bool.eqb] in *.
    destruct inp as [|a [|b inp']]; cbn in Hargs; try lia.
    cbv [bind input emit stdin trace].
    match goal with
    | |- context [exchange_rate _ _ _ ?c1 ?c2 ?w0] =>
        destruct (exchange_rate_fails c1 c2 w0 H) as [url ->]
    end.
    exists url. eexists [_; _]. split; reflexivity. }
  destruct (String.eqb_spec command "list") as [E|_]; [|discriminate Hcmd].
  destruct c; [discriminate Hcmd|].
  subst command. cbn [String.eqb Ascii.eqb Bool.eqb] in *.
  cbv [bind].
  destruct (get_currencies_fails (mkWorld inp tr) H) as [url ->].
  exists url, []. split; reflexivity.
Qed.

End ServiceFails.

Lemma touches_api_not_q command c : touches_api command c = true -> command <> "q".
Proof. intros H ->. discriminate H. Qed.

(** X14.  A failure of the service does not end the session.  When
    the request of "list", "rate" or "convert" ends with a
    [RequestException], which the [JSONDecodeError] of [requests] 2.27
    and later for an answer that is no JSON is too, the loop prints
    "Network/API error: " and its text and goes on with the cache it
    had; when it ends with a [ValueError] that is no
    [RequestException] (what earlier versions of [requests] raise for
    such an answer), the loop prints "Failed to parse API response."
    and goes on likewise. *)
Theorem service_failure_is_reported :
  forall (API_KEY : option string) (http : nat -> string -> result json)
         (py_str : json -> string) (c : cache) (w : world)
         (line : string) (rest : list string) (e : exn),
    key_missing API_KEY = false ->
    stdin w = line :: rest ->
    touches_api (command_of line) c = true ->
    (args_needed (command_of line) <= List.length rest)%nat ->
    (forall url, http (requests (trace w)) url = Raise e) ->
    (forall msg,
        e = RequestException msg \/ e = JSONDecodeError msg ->
        exists before,
          loop_body API_KEY http py_str c w =
          (Ok (Continue c),
           mkWorld (skipn (args_needed (command_of line)) rest)
                   (Print ("Network/API error: " ++ msg)
                      :: before ++ trace w))
          /\ requests before = 1%nat)
    /\ (e = ValueError ->
        exists before,
          loop_body API_KEY http py_str c w =
          (Ok (Continue c),
           mkWorld (skipn (args_needed (command_of line)) rest)
                   (Print "Failed to parse API response."
                      :: before ++ trace w))
          /\ requests before = 1%nat).
Proof.
  intros API_KEY http py_str c w line rest e Hkey Hin Hcmd Hargs H.
  destruct w as [inp tr]. cbn [stdin trace] in *. subst inp.
  pose proof (touches_api_not_q _ _ Hcmd) as Hq.
  destruct (dispatch_fails API_KEY http py_str e Hkey
              c rest (Prompt "Enter a command (q to quit): " :: tr)
              (command_of line) H Hcmd Hargs)
    as (url & prompts & Hd & Hp).
  assert (Hone : requests (Get url 10 :: prompts
                             ++ [Prompt "Enter a command (q to quit): "])
                 = 1%nat).
  { unfold requests in *. cbn [filter is_get List.length].
    rewrite filter_app, length_app, Hp. reflexivity. }
  rewrite (loop_body_unfold _ _ _ _ _ _ _ Hq), Hd. cbn [stdin trace].
  split.
  - intros msg [-> | ->];
      (exists (Get url 10 :: prompts
                 ++ [Prompt "Enter a command (q to quit): "]);
       split; [cbn [app]; rewrite <- app_assoc; reflexivity | exact Hone]).
  - intros ->.
    exists (Get url 10 :: prompts ++ [Prompt "Enter a command (q to quit): "]).
    split; [cbn [app]; rewrite <- app_assoc; reflexivity | exact Hone].
Qed.

Lemma service_failure_is_reported_witness :
  fst (loop_body (Some "k") (fun _ _ => Raise (JSONDecodeError "no JSON"))
                 (fun _ => "") None
                 (mkWorld ["rate"; "usd"; "eur"] []))
  = Ok (Continue None)
  /\ fst (loop_body (Some "k") (fun _ _ => Raise ValueError)
                    (fun _ => "") None (mkWorld ["list"] []))
     = Ok (Continue None).
Proof.
  split.
  - destruct (proj1 (service_failure_is_reported
                       (Some "k")
                       (fun _ _ => Raise (JSONDecodeError "no JSON"))
                       (fun _ => "") None
                       (mkWorld ["rate"; "usd"; "eur"] [])
                       "rate" ["usd"; "eur"] (JSONDecodeError "no JSON")
                       eq_refl eq_refl eq_refl (le_n 2) (fun _ => eq_refl))
                    "no JSON" (or_intror eq_refl))
      as (before & H & _).
    rewrite H. reflexivity.
  - destruct (proj2 (service_failure_is_reported
                       (Some "k") (fun _ _ => Raise ValueError)
                       (fun _ => "") None (mkWorld ["list"] [])
                       "list" [] ValueError
                       eq_refl eq_refl eq_refl (le_n 0) (fun _ => eq_refl))
                    eq_refl)
      as (before & H & _).
    rewrite H. reflexivity.
Defined.

(** *** How the session ends *)

(** X15.  A line that is "q" once stripped and put in lower case ends
    the loop at once: nothing but the prompt is written and the lines
    after it are not read. *)
Theorem quit_ends_the_loop :
  forall (API_KEY : option string) (http : nat -> string -> result json)
         (py_str : json -> string) (c : cache) (w : world)
         (line : string) (rest : list string) (fuel : nat),
    stdin w = line :: rest ->
    command_of line = "q" ->
    loop API_KEY http py_str (S fuel) c w =
    (Ok tt,
     mkWorld rest (Prompt "Enter a command (q to quit): " :: trace w)).
Proof.
  intros API_KEY http py_str c w line rest fuel Hin Hq.
  destruct w as [inp tr]. cbn [stdin trace] in *. subst inp.
  cbn [loop]. unfold bind at 1. unfold loop_body.
  cbv [bind input emit stdin trace]. fold (command_of line). rewrite Hq.
  reflexivity.
Qed.

Lemma quit_ends_the_loop_witness :
  loop None (fun _ _ => Ok JNull) (fun _ => "") 1 None
       (mkWorld ["  Q "; "list"] [])
  = (Ok tt, mkWorld ["list"] [Prompt "Enter a command (q to quit): "]).
Proof.
  apply (quit_ends_the_loop None (fun _ _ => Ok JNull) (fun _ => "") None
                            (mkWorld ["  Q "; "list"] []) "  Q " ["list"] 0
                            eq_refl eq_refl).
Defined.

Lemma reads_ret {A} (a : A) : reads_ahead (ret a).
Proof. intros w. exists 0%nat. reflexivity. Qed.

Lemma reads_lift {A} (r : result A) : reads_ahead (lift r).
Proof. intros w. exists 0%nat. reflexivity. Qed.

Lemma reads_print line : reads_ahead (print line).
Proof. intros w. exists 0%nat. reflexivity. Qed.

Lemma reads_input prompt : reads_ahead (input prompt).
Proof.
  intros w. unfold input, bind, emit. cbn.
  destruct (stdin w) as [|l r]; [exists 0%nat | exists 1%nat]; reflexivity.
Qed.

Lemma reads_bind {A B} (m : W A) (k : A -> W B) :
  reads_ahead m -> (forall a, reads_ahead (k a)) -> reads_ahead (bind m k).
Proof.
  intros Hm Hk w. unfold bind. destruct (Hm w) as [k1 H1].
  destruct (m w) as [[a|e] w']; cbn [snd] in *.
  - destruct (Hk a w') as [k2 H2]. exists (k2 + k1)%nat.
    rewrite H2, H1. apply skipn_skipn.
  - exists k1. exact H1.
Qed.

Lemma reads_api_get_json API_KEY http endpoint timeout :
  reads_ahead (api_get_json API_KEY http endpoint timeout).
Proof.
  intros w. exists 0%nat. unfold api_get_json.
  destruct (key_missing API_KEY); reflexivity.
Qed.

Lemma reads_print_currencies py_str cs :
  reads_ahead (print_currencies py_str cs).
Proof.
  induction cs as [|[k c] cs IH]; cbn [print_currencies].
  - apply reads_ret.
  - do 3 (apply reads_bind; [apply reads_lift | intros ?]).
    apply reads_bind; [apply reads_print | intros _; exact IH].
Qed.

Lemma reads_get_currencies API_KEY http :
  reads_ahead (get_currencies API_KEY http).
Proof.
  unfold get_currencies.
  apply reads_bind; [apply reads_api_get_json | intros doc].
  apply reads_bind; [apply reads_lift | intros data].
  destruct data; first [apply reads_ret | apply reads_lift].
Qed.

Lemma reads_exchange_rate API_KEY http py_str cur1 cur2 :
  reads_ahead (exchange_rate API_KEY http py_str cur1 cur2).
Proof.
  unfold exchange_rate.
  apply reads_bind; [apply reads_api_get_json | intros data].
  destruct (negb (truthy data)).
  - apply reads_bind; [apply reads_print | intros _; apply reads_ret].
  - apply reads_bind; [apply reads_lift | intros rate].
    destruct rate;
      (apply reads_bind; [apply reads_print | intros _]);
      first [ apply reads_ret
            | apply reads_bind; [apply reads_lift | intros ?; apply reads_ret] ].
Qed.

Lemma reads_convert API_KEY http py_str cur1 cur2 amount :
  reads_ahead (convert API_KEY http py_str cur1 cur2 amount).
Proof.
  unfold convert.
  apply reads_bind; [apply reads_exchange_rate | intros r].
  destruct r as [rate|]; [|apply reads_ret].
  destruct (float_of_string amount);
    (apply reads_bind; [apply reads_print | intros _; apply reads_ret]).
Qed.

Lemma reads_dispatch API_KEY http py_str command c :
  reads_ahead (dispatch API_KEY http py_str command c).
Proof.
  unfold dispatch.
  destruct (String.eqb command "list").
  { apply reads_bind.
    - destruct c; [apply reads_ret | apply reads_get_currencies].
    - intros a. apply reads_bind; [apply reads_print_currencies|].
      intros _. apply reads_ret. }
  destruct (String.eqb command "convert").
  { do 3 (apply reads_bind; [apply reads_input | intros ?]).
    apply reads_bind; [apply reads_convert | intros ?; apply reads_ret]. }
  destruct (String.eqb command "rate").
  { do 2 (apply reads_bind; [apply reads_input | intros ?]).
    apply reads_bind; [apply reads_exchange_rate | intros ?; apply reads_ret]. }
  apply reads_bind; [apply reads_print | intros ?; apply reads_ret].
Qed.

Lemma in_skipn {A} (x : A) k : forall l, In x (skipn k l) -> In x l.
Proof.
  induction k as [|k IH]; intros l H; [exact H|].
  destruct l as [|y l]; [exact H|]. right. apply IH, H.
Qed.

Lemma no_runtime_ret {A} (a : A) : no_runtime_error (ret a).
Proof. intros w msg. discriminate. Qed.

Lemma no_runtime_print line : no_runtime_error (print line).
Proof. intros w msg. discriminate. Qed.

Lemma no_runtime_input prompt : no_runtime_error (input prompt).
Proof.
  intros w msg. unfold input, bind, emit. cbn.
  destruct (stdin w); discriminate.
Qed.

Lemma no_runtime_bind {A B} (m : W A) (k : A -> W B) :
  no_runtime_error m -> (forall a, no_runtime_error (k a)) ->
  no_runtime_error (bind m k).
Proof.
  intros Hm Hk w msg. unfold bind. specialize (Hm w msg).
  destruct (m w) as [[a|e] w']; cbn [fst] in *; [apply Hk|].
  intros [= ->]. apply Hm. reflexivity.
Qed.

Lemma no_runtime_get_default x key default :
  no_runtime_error (lift (get_default x key default)).
Proof. intros w msg. destruct x; discriminate. Qed.

Lemma no_runtime_float_of_json x : no_runtime_error (lift (float_of_json x)).
Proof.
  intros w msg. unfold lift. cbn [fst]. destruct x as [|b|a|s|l|m]; cbn;
    try discriminate.
  - destruct a as [n|f]; cbn; [|discriminate]. unfold float_of_int.
    destruct (n =? 0)%Z; [discriminate|].
    destruct (PyFloat.round_pos (Z.abs n) 1) as [[m e]|]; discriminate.
  - destruct (float_of_string s); discriminate.
Qed.

Section Session.

Variable API_KEY : option string.
Variable http : nat -> string -> result json.
Variable py_str : json -> string.
Hypothesis has_key : key_missing API_KEY = false.
Hypothesis http_errors :
  forall i url msg, http i url <> Raise (RuntimeError msg).

Lemma no_runtime_api_get_json endpoint timeout :
  no_runtime_error (api_get_json API_KEY http endpoint timeout).
Proof.
  intros w msg. rewrite (api_get_json_sends _ _ _ _ _ has_key). cbn [fst].
  apply http_errors.
Qed.

Lemma no_runtime_print_currencies cs :
  no_runtime_error (print_currencies py_str cs).
Proof.
  induction cs as [|[k c] cs IH]; cbn [print_currencies].
  - apply no_runtime_ret.
  - do 3 (apply no_runtime_bind; [apply no_runtime_get_default | intros ?]).
    apply no_runtime_bind; [apply no_runtime_print | intros _; exact IH].
Qed.

Lemma no_runtime_get_currencies :
  no_runtime_error (get_currencies API_KEY http).
Proof.
  unfold get_currencies.
  apply no_runtime_bind; [apply no_runtime_api_get_json | intros doc].
  apply no_runtime_bind; [apply no_runtime_get_default | intros data].
  destruct data; first [apply no_runtime_ret | intros w msg; discriminate].
Qed.

Lemma no_runtime_exchange_rate cur1 cur2 :
  no_runtime_error (exchange_rate API_KEY http py_str cur1 cur2).
Proof.
  unfold exchange_rate.
  apply no_runtime_bind; [apply no_runtime_api_get_json | intros data].
  destruct (negb (truthy data)).
  - apply no_runtime_bind; [apply no_runtime_print|].
    intros _. apply no_runtime_ret.
  - apply no_runtime_bind; [apply no_runtime_get_default | intros rate].
    destruct rate;
      (apply no_runtime_bind; [apply no_runtime_print | intros _]);
      first [ apply no_runtime_ret
            | apply no_runtime_bind;
              [apply no_runtime_float_of_json
              | intros ?; apply no_runtime_ret] ].
Qed.

Lemma no_runtime_convert cur1 cur2 amount :
  no_runtime_error (convert API_KEY http py_str cur1 cur2 amount).
Proof.
  unfold convert.
  apply no_runtime_bind; [apply no_runtime_exchange_rate | intros r].
  destruct r as [rate|]; [|apply no_runtime_ret].
  destruct (float_of_string amount);
    (apply no_runtime_bind;
     [apply no_runtime_print | intros _; apply no_runtime_ret]).
Qed.

Lemma no_runtime_dispatch command c :
  no_runtime_error (dispatch API_KEY http py_str command c).
Proof.
  unfold dispatch.
  destruct (String.eqb command "list").
  { apply no_runtime_bind.
    - destruct c; [apply no_runtime_ret | apply no_runtime_get_currencies].
    - intros a. apply no_runtime_bind; [apply no_runtime_print_currencies|].
      intros _. apply no_runtime_ret. }
  destruct (String.eqb command "convert").
  { do 3 (apply no_runtime_bind; [apply no_runtime_input | intros ?]).
    apply no_runtime_bind;
      [apply no_runtime_convert | intros ?; apply no_runtime_ret]. }
  destruct (String.eqb command "rate").
  { do 2 (apply no_runtime_bind; [apply no_runtime_input | intros ?]).
    apply no_runtime_bind;
      [apply no_runtime_exchange_rate | intros ?; apply no_runtime_ret]. }
  apply no_runtime_bind;
    [apply no_runtime_print | intros ?; apply no_runtime_ret].
Qed.

(** Without a "q" among the lines still to read, the loop ends with an
    exception; the bound on its turns is not what stops it. *)
Lemma loop_without_quit fuel : forall c w,
  (List.length (stdin w) < fuel)%nat ->
  (forall line, In line (stdin w) -> command_of line <> "q") ->
  exists e, fst (loop API_KEY http py_str fuel c w) = Raise e.
Proof.
  induction fuel as [|f IH]; intros c [inp tr] Hlen Hq; [inversion Hlen|].
  cbn [stdin] in *. cbn [loop]. unfold bind at 1.
  destruct inp as [|line inp].
  { exists EOFError. reflexivity. }
  rewrite (loop_body_unfold _ _ _ _ _ _ _ (Hq line (or_introl eq_refl))).
  pose proof (reads_dispatch API_KEY http py_str (command_of line) c
                (mkWorld inp (Prompt "Enter a command (q to quit): " :: tr)))
    as [k Hk].
  pose proof (no_runtime_dispatch (command_of line) c
                (mkWorld inp (Prompt "Enter a command (q to quit): " :: tr)))
    as Hr.
  destruct (dispatch API_KEY http py_str (command_of line) c _)
    as [[c'|e] w']; cbn [fst snd stdin] in *.
  - apply IH.
    + rewrite Hk, length_skipn. cbn in Hlen. lia.
    + intros l Hl. rewrite Hk in Hl. apply Hq. right. eapply in_skipn, Hl.
  - assert (Hgo : forall c0 t,
               exists e0,
                 fst (loop API_KEY http py_str f c0 (mkWorld (stdin w') t))
                 = Raise e0).
    { intros c0 t. apply IH; cbn [stdin].
      - rewrite Hk, length_skipn. cbn in Hlen. lia.
      - intros l Hl. rewrite Hk in Hl. apply Hq. right. eapply in_skipn, Hl. }
    destruct e; try (eexists; reflexivity).
    + apply Hgo.
    + exfalso. apply (Hr msg). reflexivity.
    + apply Hgo.
    + apply Hgo.
Qed.

End Session.

(** X16.  With a key, and a service that fails only in the ways the
    client expects, a session whose input holds no "q" line never ends
    normally: it ends with an exception ([EOFError] once the input is
    read up, if none comes earlier). *)
Theorem session_without_quit :
  forall (API_KEY : option string) (http : nat -> string -> result json)
         (py_str : json -> string) (lines : list string),
    key_missing API_KEY = false ->
    (forall i url msg, http i url <> Raise (RuntimeError msg)) ->
    (forall line, In line lines -> command_of line <> "q") ->
    exists e, fst (run_main API_KEY http py_str lines) = Raise e.
Proof.
  intros API_KEY http py_str lines Hkey Hhttp Hq.
  unfold run_main, main. cbv [bind print emit stdin trace].
  apply (loop_without_quit API_KEY http py_str Hkey Hhttp); cbn [stdin].
  - lia.
  - exact Hq.
Qed.

Lemma session_without_quit_witness :
  exists e,
    fst (run_main (Some "k") (fun _ _ => Raise ValueError) (fun _ => "")
                  ["list"; "help"])
    = Raise e.
Proof.
  apply session_without_quit.
  - reflexivity.
  - intros i url msg. discriminate.
  - intros line [<-|[<-|[]]]; vm_compute; discriminate.
Defined.

End CurrencyConverterMore.

(* ===================================================================== *)
(** ** Further properties of Rock-Paper-Scissors                         *)
(* ===================================================================== *)

Module RPSMore.
Import Py CurrencyConverter RPS.
Local Open Scope io_scope.

Lemma is_option_in x : is_option x = true <-> In x OPTIONS.
Proof.
  unfold is_option. rewrite existsb_exists. split.
  - intros (y & Hy & E). apply String.eqb_eq in E. subst. exact Hy.
  - intros H. exists x. split; [exact H | apply String.eqb_refl].
Qed.

(** One call on a line that is "q" or an option. *)
Lemma get_user_choice_accepts msg d line inp tr :
  invalid_line line = false ->
  get_user_choice msg (S d) (mkWorld (line :: inp) tr) =
  (Ok (if String.eqb (choice_of line) "q" then None
       else Some (choice_of line)),
   mkWorld inp (Prompt USER_PROMPT :: tr)).
Proof.
  unfold invalid_line. intros H. cbn [get_user_choice].
  cbv [bind input emit stdin trace].
  destruct (String.eqb (choice_of line) "q"); [reflexivity|].
  cbn [negb andb] in H. rewrite H. reflexivity.
Qed.

(** One call on a line that is neither. *)
Lemma get_user_choice_rejects msg d line inp tr :
  invalid_line line = true ->
  get_user_choice msg (S d) (mkWorld (line :: inp) tr) =
  get_user_choice msg d
    (mkWorld inp (Print INVALID_CHOICE :: Prompt USER_PROMPT :: tr)).
Proof.
  unfold invalid_line. intros H. apply andb_prop in H. destruct H as [Hq Ho].
  cbn [get_user_choice]. cbv [bind input emit print stdin trace].
  apply negb_true_iff in Hq. rewrite Hq, Ho. reflexivity.
Qed.

(** X17.  [get_user_choice] returns [None] or one of "rock", "paper",
    "scissors", and the only exceptions that leave it are [EOFError]
    and the [RecursionError] of the interpreter. *)
Theorem get_user_choice_valid :
  forall (msg : string) (depth : nat) (w : world),
    match fst (get_user_choice msg depth w) with
    | Ok None => True
    | Ok (Some c) => In c OPTIONS
    | Raise e => e = EOFError \/ e = RuntimeError msg
    end.
Proof.
  intros msg depth. induction depth as [|d IH]; intros [inp tr].
  - cbn. auto.
  - destruct inp as [|line inp]; [cbn; auto|].
    destruct (invalid_line line) eqn:Hl.
    + rewrite (get_user_choice_rejects _ _ _ _ _ Hl). apply IH.
    + rewrite (get_user_choice_accepts _ _ _ _ _ Hl). cbn [fst].
      unfold invalid_line in Hl.
      destruct (String.eqb (choice_of line) "q"); [exact I|].
      cbn [negb andb] in Hl. apply negb_false_iff in Hl.
      apply is_option_in, Hl.
Qed.

(** X18.  [get_user_choice] skips the lines it rejects, with one
    complaint each, and answers from the first line that is "q" or an
    option, leaving the lines after it; when as many lines are rejected
    in a row as the recursion limit allows calls, it raises the
    [RecursionError] instead, those lines read. *)
Theorem get_user_choice_skips_invalid :
  forall (msg : string) (depth : nat) (bad : list string)
         (rest : list string) (tr : list event),
    forallb invalid_line bad = true ->
    (forall good,
        (List.length bad < depth)%nat -> invalid_line good = false ->
        get_user_choice msg depth (mkWorld (bad ++ good :: rest) tr) =
        (Ok (if String.eqb (choice_of good) "q" then None
             else Some (choice_of good)),
         mkWorld rest
                 (Prompt USER_PROMPT :: reprompted (List.length bad) tr)))
    /\ (List.length bad = depth ->
        get_user_choice msg depth (mkWorld (bad ++ rest) tr) =
        (Raise (RuntimeError msg),
         mkWorld rest (reprompted (List.length bad) tr))).
Proof.
  intros msg depth bad. revert depth.
  induction bad as [|b bad IH]; intros depth rest tr Hbad.
  - split.
    + intros good Hlen Hgood. destruct depth as [|d]; [inversion Hlen|].
      apply get_user_choice_accepts, Hgood.
    + intros <-. reflexivity.
  - cbn [forallb] in Hbad. apply andb_prop in Hbad.
    destruct Hbad as [Hb Hbad]. split.
    + intros good Hlen Hgood. destruct depth as [|d]; [inversion Hlen|].
      cbn [app]. rewrite (get_user_choice_rejects _ _ _ _ _ Hb).
      cbn [List.length] in Hlen.
      rewrite (proj1 (IH d rest _ Hbad) good) by (lia || exact Hgood).
      reflexivity.
    + intros <-. cbn [app List.length].
      rewrite (get_user_choice_rejects _ _ _ _ _ Hb).
      rewrite (proj2 (IH (List.length bad) rest _ Hbad) eq_refl).
      reflexivity.
Qed.

Lemma get_user_choice_skips_invalid_witness :
  get_user_choice "limit" 3 (mkWorld ["stone"; ""; " Paper "; "q"] []) =
  (Ok (Some "paper"),
   mkWorld ["q"]
           [ Prompt USER_PROMPT;
             Print INVALID_CHOICE; Prompt USER_PROMPT;
             Print INVALID_CHOICE; Prompt USER_PROMPT ])
  /\ get_user_choice "limit" 2 (mkWorld ["stone"; ""; " Paper "; "q"] []) =
     (Raise (RuntimeError "limit"),
      mkWorld [" Paper "; "q"]
              [ Print INVALID_CHOICE; Prompt USER_PROMPT;
                Print INVALID_CHOICE; Prompt USER_PROMPT ]).
Proof.
  split.
  - apply (proj1 (get_user_choice_skips_invalid
                    "limit" 3 ["stone"; ""] ["q"] [] eq_refl) " Paper ").
    + repeat constructor.
    + reflexivity.
  - apply (proj2 (get_user_choice_skips_invalid
                    "limit" 2 ["stone"; ""] [" Paper "; "q"] [] eq_refl)).
    reflexivity.
Defined.

(** *** The scores *)

Lemma score_round_tally r us cs w :
  score_round r us cs w =
  (Ok (if r =? 1 then (us + 1, cs)
       else if r =? -1 then (us, cs + 1) else (us, cs)),
   mkWorld (stdin w)
           (Print (if r =? 1 then "You won!"
                   else if r =? -1 then "You lost!" else "It's a tie!")
              :: trace w)).
Proof.
  unfold score_round.
  destruct (r =? 1); [reflexivity|]. destruct (r =? -1); reflexivity.
Qed.

(** The loop on lines that are options, up to a "q" line. *)
Lemma play_tally limit msg rnd choices : forall fuel i us cs quit rest tr,
  (0 < limit)%nat ->
  (List.length choices < fuel)%nat ->
  forallb (fun l => is_option (choice_of l)) choices = true ->
  choice_of quit = "q" ->
  exists t,
    play limit msg rnd fuel i us cs (mkWorld (choices ++ quit :: rest) tr) =
    (Ok (tally (combine (map choice_of choices)
                        (computer_choices rnd i choices)) (us, cs)),
     mkWorld rest t).
Proof.
  induction choices as [|c choices IH];
    intros fuel i us cs quit rest tr Hlimit Hfuel Hall Hq;
    (destruct fuel as [|f]; [inversion Hfuel|]);
    (destruct limit as [|d]; [inversion Hlimit|]).
  - cbn [app play]. unfold bind at 1.
    rewrite get_user_choice_accepts
      by (unfold invalid_line; rewrite Hq; reflexivity).
    rewrite Hq. eexists. reflexivity.
  - cbn [forallb] in Hall. apply andb_prop in Hall. destruct Hall as [Hc Hall].
    assert (Hnq : String.eqb (choice_of c) "q" = false).
    { destruct (String.eqb_spec (choice_of c) "q") as [E|_]; [|reflexivity].
      rewrite E in Hc. discriminate Hc. }
    cbn [app play]. unfold bind at 1.
    rewrite get_user_choice_accepts
      by (unfold invalid_line; rewrite Hnq, Hc; reflexivity).
    rewrite Hnq. unfold bind at 1. unfold print at 1, emit at 1.
    cbv beta iota. unfold bind at 1. rewrite score_round_tally.
    unfold bind at 1. unfold print at 1, emit at 1. cbv beta iota.
    cbn [List.length] in Hfuel.
    cbn [stdin trace fst snd map computer_choices combine tally].
    unfold get_computer_choice.
    destruct (determine_winner (choice_of c) _ =? 1);
      [|destruct (determine_winner (choice_of c) _ =? -1)];
      cbn [fst snd]; apply IH; first [assumption | lia].
Qed.

(** X19.  On input made of lines that are options and then a "q"
    line, [main] ends normally with the lines after "q" unread, and its
    last three lines report the tally of the rounds: one point to the
    user for every round [determine_winner] gives 1, one to the
    computer for every round it gives -1. *)
Theorem main_reports_tally :
  forall (limit : nat) (msg : string) (rnd : nat -> nat)
         (choices : list string) (quit : string) (rest : list string),
    (0 < limit)%nat ->
    forallb (fun l => is_option (choice_of l)) choices = true ->
    choice_of quit = "q" ->
    exists t,
      RPS.main limit msg rnd (mkWorld (choices ++ quit :: rest) []) =
      (Ok tt,
       mkWorld rest
         (Print ("Computer won "
                   ++ show (snd (tally (combine (map choice_of choices)
                                          (computer_choices rnd 0 choices))
                                       (0, 0)))
                   ++ " times.")
            :: Print ("You won "
                        ++ show (fst (tally (combine (map choice_of choices)
                                               (computer_choices rnd 0 choices))
                                            (0, 0)))
                        ++ " times.")
            :: Print "Final score:" :: t)).
Proof.
  intros limit msg rnd choices quit rest Hlimit Hall Hq.
  unfold RPS.main. unfold bind at 1. cbn [stdin].
  destruct (play_tally limit msg rnd choices
              (S (List.length (choices ++ quit :: rest))) 0 0 0 quit rest []
              Hlimit) as [t Ht]; [|exact Hall|exact Hq|].
  { rewrite length_app. cbn [List.length]. lia. }
  rewrite Ht. exists t. reflexivity.
Qed.

Lemma main_reports_tally_witness :
  exists t,
    RPS.main 5 "limit" (fun _ => 0%nat)
             (mkWorld ["Rock"; " paper "; "scissors"; "Q"; "rock"] []) =
    (Ok tt,
     mkWorld ["rock"]
             (Print "Computer won 1 times." :: Print "You won 1 times."
                :: Print "Final score:" :: t)).
Proof.
  exact (main_reports_tally 5 "limit" (fun _ => 0%nat)
                            ["Rock"; " paper "; "scissors"] "Q" ["rock"]
                            (Nat.lt_0_succ 4) eq_refl eq_refl).
Defined.

(** X20.  Between two options the game is zero-sum: the result with
    the choices exchanged is the opposite result. *)
Theorem determine_winner_antisymmetric :
  forall user computer : string,
    In user OPTIONS -> In computer OPTIONS ->
    determine_winner computer user = - determine_winner user computer.
Proof.
  intros user computer Hu Hc.
  destruct (RPSProps.option_cases _ Hu) as [-> | [-> | ->]];
    destruct (RPSProps.option_cases _ Hc) as [-> | [-> | ->]];
    reflexivity.
Qed.

Lemma determine_winner_antisymmetric_witness :
  determine_winner "paper" "scissors" = - determine_winner "scissors" "paper".
Proof.
  apply determine_winner_antisymmetric; cbn; tauto.
Defined.

Lemma pair_in_wins p : existsb (pair_eqb p) wins = true <-> In p wins.
Proof.
  rewrite existsb_exists. split.
  - intros (q & Hq & E). unfold pair_eqb in E. apply andb_prop in E.
    destruct E as [E1 E2]. apply String.eqb_eq in E1, E2.
    destruct p, q. cbn in *. subst. exact Hq.
  - intros H. exists p. split; [exact H|]. unfold pair_eqb.
    rewrite !String.eqb_refl. reflexivity.
Qed.

(** X21.  Whatever the two texts are, [determine_winner] gives 0
    exactly when they are equal and 1 exactly for the three pairs of
    [wins]; every other pair, valid or not, counts for the
    computer. *)
Theorem determine_winner_any_text :
  forall user computer : string,
    (determine_winner user computer = 0 <-> user = computer)
    /\ (determine_winner user computer = 1 <-> In (user, computer) wins)
    /\ (determine_winner user computer = -1 <->
        user <> computer /\ ~ In (user, computer) wins).
Proof.
  intros user computer. unfold determine_winner.
  destruct (String.eqb_spec user computer) as [E|E].
  - subst computer. split; [tauto|]. split.
    + split; [discriminate|].
      cbn. intros [H|[H|[H|[]]]]; inversion H; subst; discriminate.
    + split; [discriminate | tauto].
  - destruct (existsb (pair_eqb (user, computer)) wins) eqn:X.
    + apply pair_in_wins in X. split; [split; [discriminate|tauto]|].
      split; [tauto|]. split; [discriminate|tauto].
    + assert (~ In (user, computer) wins).
      { intros H. apply pair_in_wins in H. congruence. }
      split; [split; [discriminate|tauto]|].
      split; [split; [discriminate|tauto]|]. tauto.
Qed.

End RPSMore.
